(** * dingtalk-alert-server: the alert formatter/dispatcher and its HTTP handler

    A shallow embedding of [server/server.go].  Go strings are byte
    strings, so the UTF-8 literals of the source are kept as they are;
    Go maps are finite maps ([gmap]); the standard-library calls the
    source makes (JSON, HTTP client, time formatting, map iteration
    order) are the fields of a [Runtime] the code is run against. *)

From Stdlib Require Import String Ascii ZArith List.
From stdpp Require Import base option list gmap strings.

Open Scope string_scope.
Open Scope Z_scope.

(** ** Strings and maps as the source uses them *)

(** The escape [\n] of the Go literals. *)
Definition LF : string := String (Ascii.ascii_of_nat 10) EmptyString.

(** The double quote character of the Go literals. *)
Definition DQ : string := String (Ascii.ascii_of_nat 34) EmptyString.

(** Go's [error] values, identified with the text [Error()] returns;
    [errors.New] builds one from its text. *)
Definition error : Type := string.
Definition errors_New (text : string) : error := text.

(** [m[k]]: the value under [k], the zero string when [k] is absent. *)
Definition index (m : gmap string string) (k : string) : string :=
  match m !! k with
  | Some v => v
  | None => EmptyString
  end.

(** [_, ok := m[k]]: presence of [k]. *)
Definition comma_ok {V : Type} (m : gmap string V) (k : string) : bool :=
  match m !! k with
  | Some _ => true
  | None => false
  end.

(** ** Data model (server.go, lines 16-51) *)

(** [time.Time], a carrier for the instants the JSON body holds; only
    [Format] looks inside it. *)
Record time_Time : Type := mkTime { unixNano : Z; zone : string }.

Module Alert.
Record t : Type := mk {
  Status : string;
  Labels : gmap string string;
  Annotations : gmap string string;
  StartsAt : time_Time;
  EndsAt : time_Time;
  GeneratorURL : string
}.
End Alert.

Module Message.
Record t : Type := mk {
  Version : string;
  GroupKey : string;
  Status : string;
  Receiver : string;
  GroupLabels : gmap string string;
  CommonLabels : gmap string string;
  CommonAnnotations : gmap string string;
  ExternalURL : string;
  Alerts : list Alert.t
}.

(** [Message{}], the zero value the handler decodes into. *)
Definition zero : t := mk EmptyString EmptyString EmptyString EmptyString ∅ ∅ ∅ EmptyString [].
End Message.

Module At.
Record t : Type := mk { AtMobiles : list string; IsAtAll : bool }.
End At.

Module Markdown.
Record t : Type := mk { Title : string; Text : string }.
End Markdown.

Module DingTalkMarkdown.
Record t : Type := mk { MsgType : string; At : At.t; Markdown : Markdown.t }.
End DingTalkMarkdown.

Definition layout : string := "Jan 2, 2006 at 3:04pm (MST)".

(** ** The outside world *)

(** An outbound [*http.Request] and the [*http.Response] to it. *)
Module Request.
Record t : Type := mk {
  Method : string;
  URL : string;
  Header : gmap string string;
  Body : string
}.

Definition Header_Set (k v : string) (req : t) : t :=
  mk (Method req) (URL req) (<[k := v]> (Header req)) (Body req).
End Request.

Module Response.
Record t : Type := mk {
  StatusCode : Z;
  Header : gmap string (list string)
}.
End Response.

(** The standard-library calls of the source.  [range_order i m] is the
    order in which the [i]-th [range] over a label map visits [m]: Go
    fixes none, so every execution may see another one. *)
Class Runtime : Type := {
  time_Format : time_Time -> string -> string;
  range_order : nat -> gmap string string -> list (string * string);
  json_Marshal : DingTalkMarkdown.t -> error + string;
  json_Unmarshal : string -> Message.t -> Message.t * option error;
  http_NewRequest : string -> string -> string -> error + Request.t;
  client_Do : Request.t -> error + Response.t;
  fmt_Header : gmap string (list string) -> string;
  strconv_ParseBool : string -> bool * option error
}.

(** A [range] visits every entry of the map exactly once. *)
Definition range_visits_all (R : Runtime) : Prop :=
  forall (i : nat) (m : gmap string string), range_order i m ≡ₚ map_to_list m.

(** What a run leaves behind: the requests handed to [client.Do], the
    lines given to the logger, and the logger's flags. *)
Record World : Type := mkWorld {
  outbound : list Request.t;
  logged : list string;
  log_flags : Z
}.

(** Code that may fail with an [error] and acts on the world. *)
Definition IO (A : Type) : Type := World -> (error + A) * World.

Definition io_ret {A : Type} (a : A) : IO A := fun σ => (inr a, σ).

Definition io_fail {A : Type} (err : error) : IO A := fun σ => (inl err, σ).

Definition io_bind {A B : Type} (c : IO A) (k : A -> IO B) : IO B :=
  fun σ =>
    match c σ with
    | (inl err, σ') => (inl err, σ')
    | (inr a, σ') => k a σ'
    end.

(** [x, err := f(); if err != nil { return err }]. *)
Definition io_try {A : Type} (r : error + A) : IO A :=
  match r with
  | inl err => io_fail err
  | inr a => io_ret a
  end.

Notation "x <~ c ;; k" := (io_bind c (fun x => k))
  (at level 100, c at next level, right associativity, only parsing).
Notation "c ;;; k" := (io_bind c (fun _ => k))
  (at level 100, right associativity, only parsing).

Definition log_Print (line : string) : IO unit :=
  fun σ => (inr tt, mkWorld (outbound σ) (logged σ ++ [line]) (log_flags σ)).

Definition log_SetFlags (flags : Z) : IO unit :=
  fun σ => (inr tt, mkWorld (outbound σ) (logged σ) flags).

(** [client.Do(req)]: the request leaves the process, whatever comes back. *)
Definition http_Client_Do `{Runtime} (req : Request.t) : IO Response.t :=
  fun σ => (client_Do req, mkWorld (outbound σ ++ [req]) (logged σ) (log_flags σ)).

(** ** The formatter/dispatcher: [SendToDingtalk] (server.go, lines 55-219) *)

(** Lines 105-110, 116-121, 133-138 and 147-152: the name, with the
    namespace put right in front of it when the group labels have one. *)
Definition namespaced (groupLabels : gmap string string) (nsKey nameKey : string) : string :=
  match groupLabels !! nsKey with
  | Some namespace => namespace +:+ index groupLabels nameKey
  | None => index groupLabels nameKey
  end.

(** Lines 61-161: the presence checks and the description of the alert
    type; [inl] is the error the function returns with. *)
Definition description_of (alertMessage : Message.t) : error + string :=
  let CommonLabels := Message.CommonLabels alertMessage in
  let GroupLabels := Message.GroupLabels alertMessage in
  if negb (comma_ok CommonLabels "alert_type") then
    inl (errors_New "alert type is null")
  else
  let alert_type := index CommonLabels "alert_type" in
  if String.eqb alert_type "event" then
    if negb (comma_ok CommonLabels "event_type") then
      inl (errors_New "event_type is null in commonLabels")
    else if negb (comma_ok GroupLabels "resource_kind") then
      inl (errors_New "resource kind is null in groupLabels")
    else
      inr (LF +:+ " > " +:+ index CommonLabels "event_type" +:+ " event of "
           +:+ index GroupLabels "resource_kind" +:+ " occuored" +:+ LF +:+ LF)
  else if String.eqb alert_type "systemService" then
    if negb (comma_ok GroupLabels "component_name") then
      inl (errors_New "component name is null in groupLabels")
    else
      inr (LF +:+ " > The system component " +:+ index GroupLabels "event_type"
           +:+ " is not running" +:+ LF +:+ LF)
  else if String.eqb alert_type "nodeHealthy" then
    if negb (comma_ok GroupLabels "node_name") then
      inl (errors_New "node name name is null in groupLabels")
    else
      inr (LF +:+ " > The kubelet on the node " +:+ index GroupLabels "node_name"
           +:+ " is not healthy" +:+ LF +:+ LF)
  else if String.eqb alert_type "nodeCPU" then
    if negb (comma_ok GroupLabels "node_name") then
      inl (errors_New "node name name is null in groupLabels")
    else if negb (comma_ok CommonLabels "cpu_threshold") then
      inl (errors_New "cpu threshold name is null in commonLabels")
    else
      inr (LF +:+ " > The CPU usage on the node " +:+ index GroupLabels "node_name"
           +:+ " is over " +:+ index CommonLabels "cpu_threshold" +:+ "%" +:+ LF +:+ LF)
  else if String.eqb alert_type "nodeMemory" then
    if negb (comma_ok GroupLabels "node_name") then
      inl (errors_New "node name name is null in groupLabels")
    else if negb (comma_ok CommonLabels "mem_threshold") then
      inl (errors_New "mem threshold name is null in commonLabels")
    else
      inr (LF +:+ " > The memory usage on the node " +:+ index GroupLabels "node_name"
           +:+ " is over " +:+ index CommonLabels "mem_threshold" +:+ "%" +:+ LF +:+ LF)
  else if String.eqb alert_type "podNotScheduled" then
    if negb (comma_ok GroupLabels "pod_name") then
      inl (errors_New "pod name name is null in groupLabels")
    else
      let pod := namespaced GroupLabels "namespace" "pod_name" in
      inr (LF +:+ " > The Pod " +:+ pod +:+ " is not scheduled" +:+ LF +:+ LF)
  else if String.eqb alert_type "podNotRunning" then
    if negb (comma_ok GroupLabels "pod_name") then
      inl (errors_New "pod name name is null in groupLabels")
    else
      let pod := namespaced GroupLabels "namespace" "pod_name" in
      inr (LF +:+ " > The Pod " +:+ pod +:+ " is not running" +:+ LF +:+ LF)
  else if String.eqb alert_type "podRestarts" then
    if negb (comma_ok GroupLabels "pod_name") then
      inl (errors_New "pod name name is null in groupLabels")
    else if negb (comma_ok CommonLabels "restart_times") then
      inl (errors_New "restart times is null in commonLabels")
    else if negb (comma_ok CommonLabels "restart_interval") then
      inl (errors_New "restart interval is null in commonLabels")
    else
      let pod := namespaced GroupLabels "namespace" "pod_name" in
      inr (LF +:+ " > The Pod " +:+ pod +:+ " restarts "
           +:+ index CommonLabels "restart_times" +:+ " times in "
           +:+ index CommonLabels "restart_interval" +:+ " sec" +:+ LF +:+ LF)
  else if String.eqb alert_type "workload" then
    if negb (comma_ok GroupLabels "workload_name") then
      inl (errors_New "workload name is null in groupLabels")
    else if negb (comma_ok CommonLabels "available_percentage") then
      inl (errors_New "available percentage is null in commonLabels")
    else
      let workload := namespaced GroupLabels "workload_namespace" "workload_name" in
      inr (LF +:+ " > The workload " +:+ workload +:+ " has available replicas less than "
           +:+ index CommonLabels "available_percentage" +:+ "%" +:+ LF +:+ LF)
  else if String.eqb alert_type "metric" then
    if negb (comma_ok CommonLabels "alert_name") then
      inl (errors_New "alert name is null in commonLabels")
    else
      inr (LF +:+ " > The metric " +:+ index CommonLabels "alert_name"
           +:+ " crossed the threshold" +:+ LF +:+ LF)
  else
    inl (errors_New "invalid alert type").

(** Line 59: the header the message starts with. *)
Definition header_of (groupKey status : string) : string :=
  "## HCaaS告警" +:+ LF +:+ LF +:+ " ### 告警组：" +:+ groupKey
  +:+ "（状态：" +:+ status +:+ ")" +:+ LF +:+ LF.

(** Line 184: the title of the envelope. *)
Definition title_of (groupKey status : string) : string :=
  "HCaaS 告警组：" +:+ groupKey +:+ "（状态：" +:+ status +:+ "）".

Section Dispatch.
Context `{R : Runtime}.

(** Lines 171-173: one line per label, in the order the range yields. *)
Fixpoint range_labels (entries : list (string * string)) (message : string) : string :=
  match entries with
  | [] => message
  | (k, v) :: rest =>
      range_labels rest (message +:+ ("- " +:+ k +:+ " : " +:+ v +:+ LF))
  end.

(** Lines 165-175: the loop over the alerts; [i] counts the alerts
    passed so far, [continue] is the branch that leaves [message] as
    it is. *)
Fixpoint range_alerts (i : nat) (alerts : list Alert.t) (message : string) : string :=
  match alerts with
  | [] => message
  | alert :: rest =>
      if negb (String.eqb (Alert.Status alert) "firing") then
        range_alerts (S i) rest message
      else
        let message := message +:+ ("-----" +:+ LF) in
        let message := range_labels (range_order i (Alert.Labels alert)) message in
        let message :=
          message +:+ ("- 起始时间：" +:+ time_Format (Alert.StartsAt alert) layout +:+ LF) in
        range_alerts (S i) rest message
  end.

(** Lines 56-187: everything up to the envelope that is marshalled. *)
Definition envelope_of (alertMessage : Message.t) (atMobiles : list string) (isAtAll : bool)
  : error + DingTalkMarkdown.t :=
  let groupKey := index (Message.CommonLabels alertMessage) "group_id" in
  let status := Message.Status alertMessage in
  let message := header_of groupKey status in
  match description_of alertMessage with
  | inl err => inl err
  | inr description =>
      let message := message +:+ description in
      let message := range_alerts 0 (Message.Alerts alertMessage) message in
      inr (DingTalkMarkdown.mk "markdown"
             (At.mk atMobiles isAtAll)
             (Markdown.mk (title_of groupKey status) message))
  end.

Definition SendToDingtalk (alertMessage : Message.t) (webhook : string)
    (atMobiles : list string) (isAtAll : bool) : IO unit :=
  dingtalkText <~ io_try (envelope_of alertMessage atMobiles isAtAll) ;;
  data <~ io_try (json_Marshal dingtalkText) ;;
  req <~ io_try (http_NewRequest "POST" webhook data) ;;
  let req := Request.Header_Set "Content-Type" "application/json" req in
  resp <~ http_Client_Do req ;;
  (if negb (Response.StatusCode resp =? 200)%Z then
     log_Print ("[ERROR] " +:+ fmt_Header (Response.Header resp))
   else io_ret tt) ;;;
  log_Print ("[INFO] Alert message sent to " +:+ webhook +:+ " successfully") ;;;
  io_ret tt.

End Dispatch.

(** ** The HTTP handler: [ReceiveAndSend] (server.go, lines 221-263) *)

(** [http.ResponseWriter]: the status line once it has been written,
    and the body written so far. *)
Module ResponseWriter.
Record t : Type := mk { status : option Z; body : string }.

Definition fresh : t := mk None EmptyString.

(** The first call fixes the status; later ones are ignored. *)
Definition WriteHeader (code : Z) (w : t) : t :=
  match status w with
  | Some _ => w
  | None => mk (Some code) (body w)
  end.

(** [fmt.Fprint(w, text)]: a write sends the header with 200 first
    when no status has been written. *)
Definition Fprint (text : string) (w : t) : t :=
  let w := WriteHeader 200 w in
  mk (status w) (body w +:+ text).

(** The status the client sees once the handler has returned. *)
Definition status_sent (w : t) : Z := default 200 (status w).
End ResponseWriter.

(** The inbound [*http.Request]: what reading its body yields, and what
    [ParseForm] leaves in [req.Form] together with its error. *)
Module InRequest.
Record t : Type := mk {
  Body : error + string;
  ParseForm : gmap string (list string) * option error
}.
End InRequest.

Definition StatusInternalServerError : Z := 500.
Definition LstdFlags : Z := 3.
Definition Lshortfile : Z := 16.

(** How a call of the handler ends: it returns, or an index expression
    is out of range and the goroutine panics. *)
Inductive Outcome : Type :=
  | Returns (w : ResponseWriter.t) (σ : World)
  | Panics.

(** [s[0]]. *)
Definition first_of (s : list string) : option string := head s.

Section Handler.
Context `{R : Runtime}.

Definition ReceiveAndSend (w : ResponseWriter.t) (req : InRequest.t) (σ : World) : Outcome :=
  let σ := snd (log_SetFlags (Z.lor LstdFlags Lshortfile) σ) in
  match InRequest.Body req with
  | inl err =>
      let w := ResponseWriter.WriteHeader StatusInternalServerError w in
      let w := ResponseWriter.Fprint err w in
      let σ := snd (log_Print ("[ERROR] " +:+ err) σ) in
      Returns w σ
  | inr body =>
      let alertMessage := fst (json_Unmarshal body Message.zero) in
      let (Form, err) := InRequest.ParseForm req in
      match err with
      | Some err =>
          let w := ResponseWriter.WriteHeader StatusInternalServerError w in
          let w := ResponseWriter.Fprint err w in
          Returns w σ
      | None =>
          if negb (comma_ok Form "webhook") then
            Returns w (snd (log_Print ("[ERROR] url argument " +:+ DQ +:+ "webhook" +:+ DQ +:+ " is null") σ))
          else if negb (comma_ok Form "isatall") then
            Returns w (snd (log_Print ("[ERROR] url argument " +:+ DQ +:+ "isatall" +:+ DQ +:+ " is null") σ))
          else
            match first_of (default [] (Form !! "webhook")) with
            | None => Panics
            | Some webhook =>
                let atmobiles := default [] (Form !! "atmobiles") in
                match first_of (default [] (Form !! "isatall")) with
                | None => Panics
                | Some text =>
                    let isatall := fst (strconv_ParseBool text) in
                    match SendToDingtalk alertMessage webhook atmobiles isatall σ with
                    | (inl err, σ) =>
                        let w := ResponseWriter.WriteHeader StatusInternalServerError w in
                        let w := ResponseWriter.Fprint err w in
                        let σ := snd (log_Print ("[ERROR] " +:+ err) σ) in
                        Returns w σ
                    | (inr _, σ) =>
                        Returns (ResponseWriter.Fprint "Alert sent successfully" w) σ
                    end
                end
            end
      end
  end.

End Handler.

(** ** The vocabulary of the specification *)

(** The two label maps a required key is looked up in. *)
Inductive LabelMap : Type := commonLabels | groupLabels.

Definition labels_of (src : LabelMap) (alertMessage : Message.t) : gmap string string :=
  match src with
  | commonLabels => Message.CommonLabels alertMessage
  | groupLabels => Message.GroupLabels alertMessage
  end.

Fixpoint assoc {A : Type} (k : string) (table : list (string * A)) : option A :=
  match table with
  | [] => None
  | (k', a) :: rest => if String.eqb k k' then Some a else assoc k rest
  end.

(** The required keys of each alert type, as the table of the
    specification lists them (the optional namespaces are not in it). *)
Definition required_keys_table : list (string * list (LabelMap * string)) :=
  [ ("event", [(commonLabels, "event_type"); (groupLabels, "resource_kind")]);
    ("systemService", [(groupLabels, "component_name")]);
    ("nodeHealthy", [(groupLabels, "node_name")]);
    ("nodeCPU", [(groupLabels, "node_name"); (commonLabels, "cpu_threshold")]);
    ("nodeMemory", [(groupLabels, "node_name"); (commonLabels, "mem_threshold")]);
    ("podNotScheduled", [(groupLabels, "pod_name")]);
    ("podNotRunning", [(groupLabels, "pod_name")]);
    ("podRestarts", [(groupLabels, "pod_name"); (commonLabels, "restart_times");
                     (commonLabels, "restart_interval")]);
    ("workload", [(groupLabels, "workload_name"); (commonLabels, "available_percentage")]);
    ("metric", [(commonLabels, "alert_name")]) ].

Definition required_keys (alert_type : string) : option (list (LabelMap * string)) :=
  assoc alert_type required_keys_table.

Definition recognized_alert_types : list string :=
  [ "event"; "systemService"; "nodeHealthy"; "nodeCPU"; "nodeMemory";
    "podNotScheduled"; "podNotRunning"; "podRestarts"; "workload"; "metric" ].

(** The two kinds of validation failure the specification names. *)
Inductive ValidationError : Type :=
  | MissingField (src : LabelMap) (key : string)
  | UnrecognizedAlertType.

(** The kind each error text of lines 61-161 stands for. *)
Definition validation_kind (err : error) : option ValidationError :=
  assoc err
    [ ("alert type is null", MissingField commonLabels "alert_type");
      ("event_type is null in commonLabels", MissingField commonLabels "event_type");
      ("resource kind is null in groupLabels", MissingField groupLabels "resource_kind");
      ("component name is null in groupLabels", MissingField groupLabels "component_name");
      ("node name name is null in groupLabels", MissingField groupLabels "node_name");
      ("cpu threshold name is null in commonLabels", MissingField commonLabels "cpu_threshold");
      ("mem threshold name is null in commonLabels", MissingField commonLabels "mem_threshold");
      ("pod name name is null in groupLabels", MissingField groupLabels "pod_name");
      ("restart times is null in commonLabels", MissingField commonLabels "restart_times");
      ("restart interval is null in commonLabels", MissingField commonLabels "restart_interval");
      ("workload name is null in groupLabels", MissingField groupLabels "workload_name");
      ("available percentage is null in commonLabels",
        MissingField commonLabels "available_percentage");
      ("alert name is null in commonLabels", MissingField commonLabels "alert_name");
      ("invalid alert type", UnrecognizedAlertType) ].

(** The validation outcome of a message: the error of lines 61-161, if any. *)
Definition validation_of (alertMessage : Message.t) : option error :=
  match description_of alertMessage with
  | inl err => Some err
  | inr _ => None
  end.

(** The description line inside the markdown quote the code wraps it in. *)
Definition quoted (line : string) : string := LF +:+ " > " +:+ line +:+ LF +:+ LF.

(** The description templates of the specification's table. *)
Definition template_of (alertMessage : Message.t) : option string :=
  let CL := Message.CommonLabels alertMessage in
  let GL := Message.GroupLabels alertMessage in
  let alert_type := index CL "alert_type" in
  if String.eqb alert_type "event" then
    Some (index CL "event_type" +:+ " event of " +:+ index GL "resource_kind" +:+ " occurred")
  else if String.eqb alert_type "systemService" then
    Some ("The system component " +:+ index GL "event_type" +:+ " is not running")
  else if String.eqb alert_type "nodeHealthy" then
    Some ("The kubelet on the node " +:+ index GL "node_name" +:+ " is not healthy")
  else if String.eqb alert_type "nodeCPU" then
    Some ("The CPU usage on the node " +:+ index GL "node_name" +:+ " is over "
          +:+ index CL "cpu_threshold" +:+ "%")
  else if String.eqb alert_type "nodeMemory" then
    Some ("The memory usage on the node " +:+ index GL "node_name" +:+ " is over "
          +:+ index CL "mem_threshold" +:+ "%")
  else if String.eqb alert_type "podNotScheduled" then
    Some ("The Pod " +:+ namespaced GL "namespace" "pod_name" +:+ " is not scheduled")
  else if String.eqb alert_type "podNotRunning" then
    Some ("The Pod " +:+ namespaced GL "namespace" "pod_name" +:+ " is not running")
  else if String.eqb alert_type "podRestarts" then
    Some ("The Pod " +:+ namespaced GL "namespace" "pod_name" +:+ " restarts "
          +:+ index CL "restart_times" +:+ " times in " +:+ index CL "restart_interval" +:+ " sec")
  else if String.eqb alert_type "workload" then
    Some ("The workload " +:+ namespaced GL "workload_namespace" "workload_name"
          +:+ " has available replicas less than " +:+ index CL "available_percentage" +:+ "%")
  else if String.eqb alert_type "metric" then
    Some ("The metric " +:+ index CL "alert_name" +:+ " crossed the threshold")
  else None.

(** The header and title as the specification words them. *)
Definition spec_header (group_key status : string) : string :=
  "Alert group: " +:+ group_key +:+ " (status: " +:+ status +:+ ")".

(** [part] occurs in [s]; [s] starts with [part]. *)
Definition contains (s part : string) : Prop :=
  exists pre post : string, s = pre +:+ part +:+ post.

Definition begins_with (s part : string) : Prop :=
  exists rest : string, s = part +:+ rest.

(** The pieces of a rendered body. *)
Definition text_of (pieces : list string) : string :=
  fold_right String.append EmptyString pieces.

Definition label_line (entry : string * string) : string :=
  "- " +:+ fst entry +:+ " : " +:+ snd entry +:+ LF.

Definition firing (alert : Alert.t) : bool := String.eqb (Alert.Status alert) "firing".

(** The alerts with their position in the sequence, counted from [i]. *)
Fixpoint numbered_from (i : nat) (alerts : list Alert.t) : list (nat * Alert.t) :=
  match alerts with
  | [] => []
  | alert :: rest => (i, alert) :: numbered_from (S i) rest
  end.

Definition firing_alerts (alerts : list Alert.t) : list (nat * Alert.t) :=
  filter (fun entry => firing (snd entry) = true) (numbered_from 0 alerts).

Section DetailBlocks.
Context `{R : Runtime}.

Definition label_lines (i : nat) (alert : Alert.t) : list string :=
  map label_line (range_order i (Alert.Labels alert)).

(** Separator line, label lines, start-time line. *)
Definition detail_block (entry : nat * Alert.t) : list string :=
  let (i, alert) := entry in
  ("-----" +:+ LF) :: label_lines i alert
    ++ ["- 起始时间：" +:+ time_Format (Alert.StartsAt alert) layout +:+ LF].

End DetailBlocks.

(** ** Sample runs *)

Definition sample_time : time_Time := mkTime 1569916800000000000 "UTC".

(** A runtime whose destination answers every request with [code]. *)
Definition sample_runtime (code : Z) : Runtime := {|
  time_Format := fun _ _ => "Oct 1, 2019 at 8:00am (UTC)";
  range_order := fun _ m => map_to_list m;
  json_Marshal := fun d =>
    inr ("{title:" +:+ Markdown.Title (DingTalkMarkdown.Markdown d) +:+ "}");
  json_Unmarshal := fun _ m => (m, None);
  http_NewRequest := fun method url body => inr (Request.mk method url ∅ body);
  client_Do := fun _ => inr (Response.mk code ∅);
  fmt_Header := fun _ => "map[]";
  strconv_ParseBool := fun text => (String.eqb text "true", None)
|}.

Definition sample_alert (status : string) (labels : gmap string string) : Alert.t :=
  Alert.mk status labels ∅ sample_time sample_time EmptyString.

Definition sample_message (GroupLabels CommonLabels : gmap string string)
    (alerts : list Alert.t) : Message.t :=
  Message.mk "4" "{}:{alertname=HighCPU}" "firing" "dingtalk"
    GroupLabels CommonLabels ∅ EmptyString alerts.

Definition metric_message : Message.t :=
  sample_message ∅
    (<["alert_type" := "metric"]> (<["alert_name" := "cpu_spike"]>
       (<["group_id" := "c-x7k2p:high-cpu"]> ∅)))
    [ sample_alert "firing" (<["severity" := "critical"]> ∅);
      sample_alert "resolved" (<["severity" := "warning"]> ∅) ].

Definition event_message : Message.t :=
  sample_message (<["resource_kind" := "Pod"]> ∅)
    (<["alert_type" := "event"]> (<["event_type" := "Warning"]> ∅)) [].

Definition event_message_without_kind : Message.t :=
  sample_message ∅ (<["alert_type" := "event"]> (<["event_type" := "Warning"]> ∅)) [].

(** The same labels as [event_message_without_kind]; every other field differs. *)
Definition other_message_without_kind : Message.t :=
  Message.mk "3" "{}:{alertname=NodeDown}" "resolved" "ops"
    ∅ (<["alert_type" := "event"]> (<["event_type" := "Warning"]> ∅))
    (<["summary" := "node down"]> ∅) "http://alertmanager:9093"
    [ sample_alert "firing" (<["severity" := "critical"]> ∅) ].

Definition service_message : Message.t :=
  sample_message (<["component_name" := "etcd"]> ∅)
    (<["alert_type" := "systemService"]> ∅) [].

Definition pod_message : Message.t :=
  sample_message (<["pod_name" := "web-0"]> (<["namespace" := "default"]> ∅))
    (<["alert_type" := "podNotScheduled"]> ∅) [].

Definition disk_message : Message.t :=
  sample_message ∅ (<["alert_type" := "disk"]> ∅) [].

Definition quiet_world : World := mkWorld [] [] 0.

(** [POST /dingtalk?isatall=%zz]: the query does not parse, and no
    parameter is left in the form. *)
Definition unparsable_request : InRequest.t :=
  InRequest.mk (inr "{}")
    (∅, Some ("invalid URL escape " +:+ DQ +:+ "%zz" +:+ DQ)).

(** [POST /dingtalk?isatall=true]: no [webhook]. *)
Definition request_without_webhook : InRequest.t :=
  InRequest.mk (inr "{}") (<["isatall" := ["true"]]> ∅, None).

(** [POST /dingtalk?webhook=...&isatall=true&atmobiles=13800000000]. *)
Definition complete_request : InRequest.t :=
  InRequest.mk (inr "{...}")
    (<["webhook" := ["https://oapi.dingtalk.com/robot/send"]]>
       (<["isatall" := ["true"]]> (<["atmobiles" := ["13800000000"]]> ∅)), None).

(** The sample runtime, with a decoder that finds [decoded] in the body. *)
Definition decoding_runtime (decoded : Message.t) (code : Z) : Runtime := {|
  time_Format := time_Format (Runtime := sample_runtime code);
  range_order := range_order (Runtime := sample_runtime code);
  json_Marshal := json_Marshal (Runtime := sample_runtime code);
  json_Unmarshal := fun _ _ => (decoded, None);
  http_NewRequest := http_NewRequest (Runtime := sample_runtime code);
  client_Do := client_Do (Runtime := sample_runtime code);
  fmt_Header := fmt_Header (Runtime := sample_runtime code);
  strconv_ParseBool := strconv_ParseBool (Runtime := sample_runtime code)
|}.

(** A group whose alerts have all been resolved. *)
Definition resolved_message : Message.t :=
  sample_message ∅
    (<["alert_type" := "metric"]> (<["alert_name" := "cpu_spike"]> ∅))
    [ sample_alert "resolved" (<["severity" := "critical"]> ∅);
      sample_alert "Firing" (<["severity" := "warning"]> ∅) ].

(** A [nodeCPU] message that has the node name but no threshold. *)
Definition cpu_message_without_threshold : Message.t :=
  sample_message (<["node_name" := "worker-3"]> ∅) (<["alert_type" := "nodeCPU"]> ∅) [].

(** [metric_message] as another sender would put it: the fields the
    dispatcher does not read are all different. *)
Definition annotated_metric_message : Message.t :=
  Message.mk "3" "{}:{alertname=Other}" "firing" "ops"
    ∅
    (<["alert_type" := "metric"]> (<["alert_name" := "cpu_spike"]>
       (<["group_id" := "c-x7k2p:high-cpu"]> ∅)))
    (<["summary" := "cpu is high"]> ∅) "http://alertmanager:9093"
    [ Alert.mk "firing" (<["severity" := "critical"]> ∅)
        (<["runbook" := "wiki/cpu"]> ∅) sample_time (mkTime 0 "CST") "http://prometheus:9090";
      Alert.mk "resolved" (<["severity" := "warning"]> ∅)
        ∅ sample_time (mkTime 1 "CST") "http://prometheus:9090" ].

(** The sample runtime, with a destination that cannot be reached. *)
Definition unreachable_runtime : Runtime := {|
  time_Format := time_Format (Runtime := sample_runtime 200);
  range_order := range_order (Runtime := sample_runtime 200);
  json_Marshal := json_Marshal (Runtime := sample_runtime 200);
  json_Unmarshal := fun _ _ => (metric_message, None);
  http_NewRequest := http_NewRequest (Runtime := sample_runtime 200);
  client_Do := fun _ => inl "dial tcp: connection refused";
  fmt_Header := fmt_Header (Runtime := sample_runtime 200);
  strconv_ParseBool := strconv_ParseBool (Runtime := sample_runtime 200)
|}.

(** [POST /dingtalk?webhook=...&isatall=] with a form whose [isatall]
    entry has no value at all. *)
Definition request_with_empty_isatall : InRequest.t :=
  InRequest.mk (inr "{...}")
    (<["webhook" := ["https://oapi.dingtalk.com/robot/send"]]> (<["isatall" := []]> ∅), None).

(** What the loop of lines 165-175 reads of an alert. *)
Definition same_detail (a b : Alert.t) : Prop :=
  Alert.Status a = Alert.Status b /\
  Alert.Labels a = Alert.Labels b /\
  Alert.StartsAt a = Alert.StartsAt b.

(** The request [SendToDingtalk] hands to the client for [data]. *)
Definition json_post (req : Request.t) : Request.t :=
  Request.Header_Set "Content-Type" "application/json" req.

(** The world once [req] has been handed to the client. *)
Definition with_sent (req : Request.t) (σ : World) : World :=
  mkWorld (outbound σ ++ [req]) (logged σ) (log_flags σ).

(** The world the handler's body starts from: line 222 has set the flags. *)
Definition with_flags (σ : World) : World :=
  mkWorld (outbound σ) (logged σ) (Z.lor LstdFlags Lshortfile).

(** The world after one more log line. *)
Definition with_line (line : string) (σ : World) : World :=
  mkWorld (outbound σ) (logged σ ++ [line]) (log_flags σ).

(** A name as the notification shows it: right behind its namespace
    when there is one. *)
Definition with_namespace (namespace : option string) (name : string) : string :=
  match namespace with
  | Some prefix => prefix +:+ name
  | None => name
  end.

(** A [workload] message whose group labels have the workload's namespace. *)
Definition workload_message : Message.t :=
  sample_message
    (<["workload_name" := "api"]> (<["workload_namespace" := "prod"]> ∅))
    (<["alert_type" := "workload"]> (<["available_percentage" := "50"]> ∅)) [].

(** Two detail blocks that differ at most in the order of their label
    lines: separator line, label lines, start-time line. *)
Definition same_block (block1 block2 : list string) : Prop :=
  exists (lines1 lines2 : list string) (start : string),
    block1 = ("-----" +:+ LF) :: lines1 ++ [start] /\
    block2 = ("-----" +:+ LF) :: lines2 ++ [start] /\
    lines1 ≡ₚ lines2.

(** The sample runtime, iterating every map the other way round. *)
Definition reversed_runtime : Runtime := {|
  time_Format := time_Format (Runtime := sample_runtime 200);
  range_order := fun _ m => rev (map_to_list m);
  json_Marshal := json_Marshal (Runtime := sample_runtime 200);
  json_Unmarshal := json_Unmarshal (Runtime := sample_runtime 200);
  http_NewRequest := http_NewRequest (Runtime := sample_runtime 200);
  client_Do := client_Do (Runtime := sample_runtime 200);
  fmt_Header := fmt_Header (Runtime := sample_runtime 200);
  strconv_ParseBool := strconv_ParseBool (Runtime := sample_runtime 200)
|}.

(** A firing alert with two labels, as two senders would put it. *)
Definition node_alert_message : Message.t :=
  sample_message ∅
    (<["alert_type" := "metric"]> (<["alert_name" := "cpu_spike"]> ∅))
    [ sample_alert "firing" (<["severity" := "critical"]> (<["node" := "worker-3"]> ∅)) ].

Definition annotated_node_alert_message : Message.t :=
  Message.mk "3" "{}:{alertname=Other}" "firing" "ops"
    ∅ (<["alert_type" := "metric"]> (<["alert_name" := "cpu_spike"]> ∅))
    (<["summary" := "cpu is high"]> ∅) "http://alertmanager:9093"
    [ Alert.mk "firing" (<["severity" := "critical"]> (<["node" := "worker-3"]> ∅))
        (<["runbook" := "wiki/cpu"]> ∅) sample_time (mkTime 0 "CST") "http://prometheus:9090" ].

(** * Properties *)

(** ** Validation *)

Section Validation.
Context `{R : Runtime}.

(** A message that fails validation makes the dispatcher return the
    error at once: nothing is sent, nothing is logged. *)
Lemma SendToDingtalk_invalid alertMessage webhook atMobiles isAtAll σ err :
  description_of alertMessage = inl err ->
  SendToDingtalk alertMessage webhook atMobiles isAtAll σ = (inl err, σ).
Proof.
  intros Hd. unfold SendToDingtalk, io_bind, envelope_of.
  rewrite Hd. reflexivity.
Qed.

End Validation.

Ltac unfold_description Ht :=
  unfold description_of, comma_ok, index, namespaced; rewrite ?Ht;
  cbn [negb String.eqb Ascii.eqb Bool.eqb andb].

Ltac split_lookups :=
  repeat
    (cbn [negb];
     match goal with
     | H : ?m !! ?k = _ |- context [?m !! ?k] => rewrite H
     | |- context [match ?m !! ?k with _ => _ end] => destruct (m !! k) eqn:?
     end);
  cbn [negb].

Lemma missing_field_rejected (alertMessage : Message.t) :
  Message.CommonLabels alertMessage !! "alert_type" = None \/
  (exists (t : string) (keys : list (LabelMap * string)) (src : LabelMap) (k : string),
      Message.CommonLabels alertMessage !! "alert_type" = Some t /\
      required_keys t = Some keys /\ In (src, k) keys /\
      labels_of src alertMessage !! k = None) ->
  exists (err : error) (src : LabelMap) (k : string),
    description_of alertMessage = inl err /\
    validation_kind err = Some (MissingField src k) /\
    labels_of src alertMessage !! k = None.
Proof.
  intros [Hnone | (t & keys & src & k & Ht & Hkeys & Hin & Hmiss)].
  - exists "alert type is null", commonLabels, "alert_type".
    unfold description_of, comma_ok. rewrite Hnone. auto.
  - unfold required_keys in Hkeys. cbn [assoc required_keys_table] in Hkeys.
    repeat
      match type of Hkeys with
      | (if String.eqb t ?s then _ else _) = _ =>
          destruct (String.eqb_spec t s) as [-> | _]
      end; try discriminate;
      injection Hkeys as <-; cbn [In] in Hin;
      repeat (destruct Hin as [[= <- <-] | Hin]); try contradiction;
      cbn [labels_of] in Hmiss;
      unfold_description Ht; split_lookups;
      eexists _, _, _; (split; [reflexivity | split; [reflexivity | eassumption]]).
Qed.

Lemma unrecognized_rejected (alertMessage : Message.t) (t : string) :
  Message.CommonLabels alertMessage !! "alert_type" = Some t ->
  ~ In t recognized_alert_types ->
  description_of alertMessage = inl "invalid alert type".
Proof.
  intros Ht Hnot. cbn [In recognized_alert_types] in Hnot.
  unfold description_of, comma_ok, index. rewrite Ht. cbn [negb].
  repeat
    match goal with
    | |- (if String.eqb t ?s then _ else _) = _ =>
        destruct (String.eqb_spec t s) as [-> | _]; [exfalso; apply Hnot; tauto |]
    end.
  reflexivity.
Qed.

(** C1. A message whose common labels lack [alert_type], or that lacks
    one of the keys its alert type requires, makes [SendToDingtalk]
    return a missing-field error naming an absent required key; the
    world is left as it was, so no request has gone out. *)
Theorem missing_field_fails_without_post `{R : Runtime}
    (alertMessage : Message.t) (webhook : string) (atMobiles : list string)
    (isAtAll : bool) (σ : World) :
  Message.CommonLabels alertMessage !! "alert_type" = None \/
  (exists (t : string) (keys : list (LabelMap * string)) (src : LabelMap) (k : string),
      Message.CommonLabels alertMessage !! "alert_type" = Some t /\
      required_keys t = Some keys /\ In (src, k) keys /\
      labels_of src alertMessage !! k = None) ->
  exists (err : error) (src : LabelMap) (k : string),
    SendToDingtalk alertMessage webhook atMobiles isAtAll σ = (inl err, σ) /\
    validation_kind err = Some (MissingField src k) /\
    labels_of src alertMessage !! k = None /\
    outbound (snd (SendToDingtalk alertMessage webhook atMobiles isAtAll σ)) = outbound σ.
Proof.
  intros Hmissing.
  destruct (missing_field_rejected alertMessage Hmissing) as (err & src & k & Hd & Hkind & Hk).
  exists err, src, k.
  rewrite (SendToDingtalk_invalid _ webhook atMobiles isAtAll σ _ Hd).
  auto.
Qed.

Lemma missing_field_fails_without_post_witness :
  labels_of groupLabels event_message_without_kind !! "resource_kind" = None /\
  exists (err : error) (src : LabelMap) (k : string),
    SendToDingtalk (R := sample_runtime 200) event_message_without_kind
      "https://oapi.dingtalk.com/robot/send" [] false quiet_world = (inl err, quiet_world) /\
    validation_kind err = Some (MissingField src k) /\
    labels_of src event_message_without_kind !! k = None /\
    outbound (snd (SendToDingtalk (R := sample_runtime 200) event_message_without_kind
      "https://oapi.dingtalk.com/robot/send" [] false quiet_world)) = outbound quiet_world.
Proof.
  split; [reflexivity |].
  apply (missing_field_fails_without_post (R := sample_runtime 200)).
  right. exists "event", [(commonLabels, "event_type"); (groupLabels, "resource_kind")],
    groupLabels, "resource_kind".
  split; [reflexivity | split; [reflexivity | split; [simpl; tauto | reflexivity]]].
Defined.

(** C3. An [alert_type] outside the ten recognized values makes
    [SendToDingtalk] return the unrecognized-alert-type error; the world
    is left as it was, so no request has gone out. *)
Theorem unrecognized_alert_type_fails_without_post `{R : Runtime}
    (alertMessage : Message.t) (webhook : string) (atMobiles : list string)
    (isAtAll : bool) (σ : World) (t : string) :
  Message.CommonLabels alertMessage !! "alert_type" = Some t ->
  ~ In t recognized_alert_types ->
  exists err : error,
    SendToDingtalk alertMessage webhook atMobiles isAtAll σ = (inl err, σ) /\
    validation_kind err = Some UnrecognizedAlertType /\
    outbound (snd (SendToDingtalk alertMessage webhook atMobiles isAtAll σ)) = outbound σ.
Proof.
  intros Ht Hnot. exists "invalid alert type".
  rewrite (SendToDingtalk_invalid _ webhook atMobiles isAtAll σ _
             (unrecognized_rejected alertMessage t Ht Hnot)).
  auto.
Qed.

Lemma unrecognized_alert_type_fails_without_post_witness :
  exists err : error,
    SendToDingtalk (R := sample_runtime 200) disk_message
      "https://oapi.dingtalk.com/robot/send" [] false quiet_world = (inl err, quiet_world) /\
    validation_kind err = Some UnrecognizedAlertType /\
    outbound (snd (SendToDingtalk (R := sample_runtime 200) disk_message
      "https://oapi.dingtalk.com/robot/send" [] false quiet_world)) = outbound quiet_world.
Proof.
  apply (unrecognized_alert_type_fails_without_post (R := sample_runtime 200)
           disk_message _ _ _ _ "disk").
  - reflexivity.
  - cbn [In recognized_alert_types].
    intros H; repeat (destruct H as [H | H]; [discriminate H |]); exact H.
Defined.

(** C10. Two messages with the same common labels and the same group
    labels have the same validation outcome, and a validation error of
    one is what [SendToDingtalk] returns for both, whatever their other
    fields, the delivery parameters, the runtime and the world are. *)
Theorem validation_depends_on_labels_only (m1 m2 : Message.t) :
  Message.CommonLabels m1 = Message.CommonLabels m2 ->
  Message.GroupLabels m1 = Message.GroupLabels m2 ->
  validation_of m1 = validation_of m2 /\
  forall (err : error) (R1 R2 : Runtime) (webhook1 webhook2 : string)
         (at1 at2 : list string) (all1 all2 : bool) (σ1 σ2 : World),
    validation_of m1 = Some err ->
    SendToDingtalk (R := R1) m1 webhook1 at1 all1 σ1 = (inl err, σ1) /\
    SendToDingtalk (R := R2) m2 webhook2 at2 all2 σ2 = (inl err, σ2).
Proof.
  intros Hcommon Hgroup.
  assert (Hsame : description_of m1 = description_of m2).
  { unfold description_of. rewrite Hcommon, Hgroup. reflexivity. }
  unfold validation_of. rewrite <- Hsame. split; [reflexivity |].
  intros err R1 R2 webhook1 webhook2 at1 at2 all1 all2 σ1 σ2 Hv.
  destruct (description_of m1) as [err' | d] eqn:Hd; [| discriminate Hv].
  injection Hv as ->.
  split; apply SendToDingtalk_invalid; congruence.
Qed.

Lemma validation_depends_on_labels_only_witness :
  validation_of event_message_without_kind = validation_of other_message_without_kind /\
  SendToDingtalk (R := sample_runtime 200) event_message_without_kind
    "https://oapi.dingtalk.com/robot/send" [] false quiet_world
    = (inl "resource kind is null in groupLabels", quiet_world) /\
  SendToDingtalk (R := sample_runtime 503) other_message_without_kind
    "https://example.org/hook" ["13800000000"] true quiet_world
    = (inl "resource kind is null in groupLabels", quiet_world).
Proof.
  destruct (validation_depends_on_labels_only
              event_message_without_kind other_message_without_kind
              eq_refl eq_refl) as [Hsame Hboth].
  split; [exact Hsame |].
  apply (Hboth _ (sample_runtime 200) (sample_runtime 503)
           "https://oapi.dingtalk.com/robot/send" "https://example.org/hook"
           [] ["13800000000"] false true quiet_world quiet_world).
  reflexivity.
Defined.

(** ** Rendering *)

Lemma string_app_assoc (a b c : string) : (a +:+ b) +:+ c = a +:+ (b +:+ c).
Proof.
  induction a as [| ch a IH]; [reflexivity |].
  exact (f_equal (String ch) IH).
Qed.

Lemma string_app_nil_r (a : string) : a +:+ EmptyString = a.
Proof.
  induction a as [| ch a IH]; [reflexivity |].
  exact (f_equal (String ch) IH).
Qed.

Lemma text_of_app (xs ys : list string) :
  text_of (xs ++ ys) = text_of xs +:+ text_of ys.
Proof.
  unfold text_of.
  induction xs as [| x xs IH]; cbn [fold_right app]; [reflexivity |].
  rewrite IH, string_app_assoc. reflexivity.
Qed.

Lemma contains_app_l (s part rest : string) :
  contains s part -> contains (s +:+ rest) part.
Proof.
  intros (pre & post & ->). exists pre, (post +:+ rest).
  rewrite !string_app_assoc. reflexivity.
Qed.

Lemma contains_app_r (s part front : string) :
  contains s part -> contains (front +:+ s) part.
Proof.
  intros (pre & post & ->). exists (front +:+ pre), post.
  rewrite !string_app_assoc. reflexivity.
Qed.

Section Rendering.
Context `{R : Runtime}.

Lemma range_labels_appends (entries : list (string * string)) (message : string) :
  range_labels entries message = message +:+ text_of (map label_line entries).
Proof.
  revert message.
  induction entries as [| [k v] rest IH]; intros message; cbn [range_labels map text_of fold_right].
  - rewrite string_app_nil_r. reflexivity.
  - rewrite IH, string_app_assoc. reflexivity.
Qed.

Lemma range_alerts_appends (alerts : list Alert.t) (i : nat) (message : string) :
  range_alerts i alerts message
  = message +:+ text_of (flat_map detail_block
                           (filter (fun entry => firing (snd entry) = true)
                                   (numbered_from i alerts))).
Proof.
  revert i message.
  induction alerts as [| alert rest IH]; intros i message;
    cbn [range_alerts numbered_from].
  - cbn. rewrite string_app_nil_r. reflexivity.
  - destruct (String.eqb (Alert.Status alert) "firing") eqn:Hstatus; cbn [negb].
    + rewrite filter_cons_True by exact Hstatus.
      cbn [flat_map detail_block]. rewrite IH, range_labels_appends.
      rewrite text_of_app. cbn [text_of fold_right app].
      fold (text_of (label_lines i alert ++
              ["- 起始时间：" +:+ time_Format (Alert.StartsAt alert) layout +:+ LF])).
      rewrite text_of_app. cbn [text_of fold_right]. unfold label_lines.
      rewrite string_app_nil_r, !string_app_assoc. reflexivity.
    + rewrite filter_cons_False by (unfold firing; cbn [snd]; rewrite Hstatus; discriminate).
      apply IH.
Qed.

(** The envelope of a message that passes validation. *)
Lemma envelope_of_valid (alertMessage : Message.t) (atMobiles : list string)
    (isAtAll : bool) (description : string) :
  description_of alertMessage = inr description ->
  envelope_of alertMessage atMobiles isAtAll
  = inr (DingTalkMarkdown.mk "markdown" (At.mk atMobiles isAtAll)
           (Markdown.mk
              (title_of (index (Message.CommonLabels alertMessage) "group_id")
                        (Message.Status alertMessage))
              (header_of (index (Message.CommonLabels alertMessage) "group_id")
                         (Message.Status alertMessage)
               +:+ description
               +:+ text_of (flat_map detail_block
                              (firing_alerts (Message.Alerts alertMessage)))))).
Proof.
  intros Hd. unfold envelope_of. rewrite Hd.
  rewrite range_alerts_appends, string_app_assoc. reflexivity.
Qed.

Lemma body_contains_description (alertMessage : Message.t) (atMobiles : list string)
    (isAtAll : bool) (line : string) :
  description_of alertMessage = inr (quoted line) ->
  exists envelope : DingTalkMarkdown.t,
    envelope_of alertMessage atMobiles isAtAll = inr envelope /\
    contains (Markdown.Text (DingTalkMarkdown.Markdown envelope)) line.
Proof.
  intros Hd. eexists. split; [apply envelope_of_valid, Hd |].
  cbn [DingTalkMarkdown.Markdown Markdown.Text].
  apply contains_app_r, contains_app_l.
  exists (LF +:+ " > "), (LF +:+ LF). unfold quoted.
  rewrite !string_app_assoc. reflexivity.
Qed.

End Rendering.

Ltac by_alert_type Hkeys :=
  unfold required_keys in Hkeys; cbn [assoc required_keys_table] in Hkeys;
  repeat
    match type of Hkeys with
    | (if String.eqb ?t ?s then _ else _) = _ =>
        destruct (String.eqb_spec t s) as [-> | _]
    end;
  try discriminate Hkeys.

Ltac solve_quoted :=
  unfold quoted, LF; rewrite ?string_app_assoc; reflexivity.

(** With every required key present, each alert type but [event] gets
    the description the table of the specification gives for it. *)
Lemma description_follows_template (alertMessage : Message.t) (t : string)
    (keys : list (LabelMap * string)) :
  Message.CommonLabels alertMessage !! "alert_type" = Some t ->
  t <> "event" ->
  required_keys t = Some keys ->
  Forall (fun entry => is_Some (labels_of (fst entry) alertMessage !! snd entry)) keys ->
  exists line : string,
    template_of alertMessage = Some line /\
    description_of alertMessage = inr (quoted line).
Proof.
  intros Ht Hne Hkeys Hall.
  by_alert_type Hkeys; try (exfalso; apply Hne; reflexivity);
    injection Hkeys as <-;
    repeat
      match goal with
      | H : Forall _ (_ :: _) |- _ =>
          let Hx := fresh "Hx" in
          apply Forall_cons in H as [Hx H];
          cbn [fst snd labels_of] in Hx; destruct Hx as [? Hx]
      end;
    unfold template_of; unfold_description Ht; split_lookups;
    eexists; (split; [reflexivity | solve_quoted]).
Qed.

(** The [event] branch, line 74 of the source. *)
Lemma event_description (alertMessage : Message.t) (event_type resource_kind : string) :
  Message.CommonLabels alertMessage !! "alert_type" = Some "event" ->
  Message.CommonLabels alertMessage !! "event_type" = Some event_type ->
  Message.GroupLabels alertMessage !! "resource_kind" = Some resource_kind ->
  description_of alertMessage
  = inr (quoted (event_type +:+ " event of " +:+ resource_kind +:+ " occuored")).
Proof.
  intros Ht Hevent Hkind. unfold_description Ht. split_lookups. solve_quoted.
Qed.

(** C2. On an [event] message with both required keys present the code
    passes validation, but the description it composes ends in
    [occuored], not in the [occurred] of the specification's template. *)
Theorem event_description_is_misspelt :
  description_of event_message = inr (quoted "Warning event of Pod occuored") /\
  template_of event_message = Some "Warning event of Pod occurred" /\
  description_of event_message <> inr (quoted "Warning event of Pod occurred").
Proof.
  split; [reflexivity | split; [reflexivity |]].
  intros H. vm_compute in H. discriminate H.
Qed.

(** C5. For [systemService] the code checks that the group labels have
    [component_name], and then puts the value under [event_type] of the
    group labels into the description (the empty string when that key
    is absent); the body of the envelope carries that description. *)
Theorem systemService_describes_event_type `{R : Runtime}
    (alertMessage : Message.t) (atMobiles : list string) (isAtAll : bool) :
  Message.CommonLabels alertMessage !! "alert_type" = Some "systemService" ->
  (Message.GroupLabels alertMessage !! "component_name" = None ->
     description_of alertMessage = inl "component name is null in groupLabels") /\
  (is_Some (Message.GroupLabels alertMessage !! "component_name") ->
     description_of alertMessage
     = inr (quoted ("The system component "
                    +:+ index (Message.GroupLabels alertMessage) "event_type"
                    +:+ " is not running")) /\
     (Message.GroupLabels alertMessage !! "event_type" = None ->
        description_of alertMessage = inr (quoted "The system component  is not running")) /\
     exists envelope : DingTalkMarkdown.t,
       envelope_of alertMessage atMobiles isAtAll = inr envelope /\
       contains (Markdown.Text (DingTalkMarkdown.Markdown envelope))
         ("The system component "
          +:+ index (Message.GroupLabels alertMessage) "event_type"
          +:+ " is not running")).
Proof.
  intros Ht. split.
  - intros Hnone. unfold_description Ht. split_lookups. reflexivity.
  - intros [component Hcomponent].
    assert (Hd : description_of alertMessage
                 = inr (quoted ("The system component "
                                +:+ index (Message.GroupLabels alertMessage) "event_type"
                                +:+ " is not running"))).
    { unfold_description Ht. split_lookups; solve_quoted. }
    split; [exact Hd | split].
    + intros Hnone. rewrite Hd. unfold index. rewrite Hnone. reflexivity.
    + apply body_contains_description, Hd.
Qed.

Lemma systemService_describes_event_type_witness :
  description_of service_message = inr (quoted "The system component  is not running").
Proof.
  destruct (systemService_describes_event_type (R := sample_runtime 200)
              service_message [] false eq_refl) as [_ Hpresent].
  destruct (Hpresent (ex_intro _ "etcd" eq_refl)) as (_ & Hempty & _).
  exact (Hempty eq_refl).
Defined.

(** C6. For [podNotScheduled] with [pod_name] in the group labels, the
    body says [The Pod {namespace}{pod_name} is not scheduled], the two
    values joined with nothing in between, when the group labels have
    [namespace], and [The Pod {pod_name} is not scheduled] when not. *)
Theorem podNotScheduled_joins_namespace `{R : Runtime}
    (alertMessage : Message.t) (atMobiles : list string) (isAtAll : bool)
    (pod_name : string) :
  Message.CommonLabels alertMessage !! "alert_type" = Some "podNotScheduled" ->
  Message.GroupLabels alertMessage !! "pod_name" = Some pod_name ->
  exists envelope : DingTalkMarkdown.t,
    envelope_of alertMessage atMobiles isAtAll = inr envelope /\
    (forall namespace : string,
        Message.GroupLabels alertMessage !! "namespace" = Some namespace ->
        contains (Markdown.Text (DingTalkMarkdown.Markdown envelope))
          ("The Pod " +:+ (namespace +:+ pod_name) +:+ " is not scheduled")) /\
    (Message.GroupLabels alertMessage !! "namespace" = None ->
        contains (Markdown.Text (DingTalkMarkdown.Markdown envelope))
          ("The Pod " +:+ pod_name +:+ " is not scheduled")).
Proof.
  intros Ht Hpod.
  assert (Hd : description_of alertMessage
               = inr (quoted ("The Pod "
                              +:+ namespaced (Message.GroupLabels alertMessage)
                                    "namespace" "pod_name"
                              +:+ " is not scheduled"))).
  { unfold_description Ht. split_lookups; solve_quoted. }
  destruct (body_contains_description alertMessage atMobiles isAtAll _ Hd)
    as (envelope & Henvelope & Hbody).
  exists envelope. split; [exact Henvelope |].
  unfold namespaced, index in Hbody. rewrite Hpod in Hbody.
  split.
  - intros namespace Hns. rewrite Hns in Hbody. exact Hbody.
  - intros Hns. rewrite Hns in Hbody. exact Hbody.
Qed.

Lemma podNotScheduled_joins_namespace_witness :
  exists envelope : DingTalkMarkdown.t,
    envelope_of (R := sample_runtime 200) pod_message [] false = inr envelope /\
    contains (Markdown.Text (DingTalkMarkdown.Markdown envelope))
      "The Pod defaultweb-0 is not scheduled".
Proof.
  destruct (podNotScheduled_joins_namespace (R := sample_runtime 200)
              pod_message [] false "web-0" eq_refl eq_refl)
    as (envelope & Henvelope & Hwith & _).
  exists envelope. split; [exact Henvelope |].
  exact (Hwith "default" eq_refl).
Defined.

(** C7 (as the specification words it). On [metric_message] neither
    the title nor the start of the body is the English
    [Alert group: {group_key} (status: {status})]. *)
Lemma header_is_not_the_english_one :
  exists envelope : DingTalkMarkdown.t,
    envelope_of (R := sample_runtime 200) metric_message [] false = inr envelope /\
    Markdown.Title (DingTalkMarkdown.Markdown envelope)
    <> spec_header (Message.GroupKey metric_message) (Message.Status metric_message) /\
    ~ begins_with (Markdown.Text (DingTalkMarkdown.Markdown envelope))
        (spec_header (Message.GroupKey metric_message) (Message.Status metric_message)).
Proof.
  eexists. split; [reflexivity |]. split.
  - intros H. vm_compute in H. discriminate H.
  - intros [rest H]. vm_compute in H. discriminate H.
Qed.

(** C7 (amended). For a message that passes validation, the body starts
    with the header [## HCaaS告警], blank line, [ ### 告警组：{g}（状态：{status})],
    blank line, and the title is [HCaaS 告警组：{g}（状态：{status}）], where
    [g] is the value of the common label [group_id] (empty when absent)
    and [status] the overall status of the message. *)
Theorem header_and_title_name_the_group `{R : Runtime}
    (alertMessage : Message.t) (atMobiles : list string) (isAtAll : bool)
    (description : string) :
  description_of alertMessage = inr description ->
  exists envelope : DingTalkMarkdown.t,
    envelope_of alertMessage atMobiles isAtAll = inr envelope /\
    begins_with (Markdown.Text (DingTalkMarkdown.Markdown envelope))
      ("## HCaaS告警" +:+ LF +:+ LF +:+ " ### 告警组："
       +:+ index (Message.CommonLabels alertMessage) "group_id"
       +:+ "（状态：" +:+ Message.Status alertMessage +:+ ")" +:+ LF +:+ LF) /\
    Markdown.Title (DingTalkMarkdown.Markdown envelope)
    = "HCaaS 告警组：" +:+ index (Message.CommonLabels alertMessage) "group_id"
      +:+ "（状态：" +:+ Message.Status alertMessage +:+ "）".
Proof.
  intros Hd. eexists. split; [apply envelope_of_valid, Hd |].
  cbn [DingTalkMarkdown.Markdown Markdown.Text Markdown.Title]. split.
  - eexists. unfold header_of. reflexivity.
  - reflexivity.
Qed.

Lemma header_and_title_name_the_group_witness :
  exists envelope : DingTalkMarkdown.t,
    envelope_of (R := sample_runtime 200) metric_message [] false = inr envelope /\
    Markdown.Title (DingTalkMarkdown.Markdown envelope)
    = "HCaaS 告警组：c-x7k2p:high-cpu（状态：firing）".
Proof.
  destruct (header_and_title_name_the_group (R := sample_runtime 200)
              metric_message [] false
              (quoted "The metric cpu_spike crossed the threshold") eq_refl)
    as (envelope & Henvelope & _ & Htitle).
  exists envelope. split; [exact Henvelope | exact Htitle].
Defined.

Lemma numbered_from_lookup (alerts : list Alert.t) (j i : nat) (alert : Alert.t) :
  (i, alert) ∈ numbered_from j alerts <->
  exists n : nat, i = (j + n)%nat /\ alerts !! n = Some alert.
Proof.
  revert j. induction alerts as [| first rest IH]; intros j; cbn [numbered_from].
  - split; [intros H; inversion H | intros (n & _ & H); discriminate H].
  - rewrite elem_of_cons, IH. split.
    + intros [[= -> ->] | (n & -> & Hn)].
      * exists 0%nat. split; [lia | reflexivity].
      * exists (S n). split; [lia | exact Hn].
    + intros ([| n] & -> & Hn).
      * left. injection Hn as ->. f_equal. lia.
      * right. exists n. split; [lia | exact Hn].
Qed.

(** The alerts that get a block are those whose status is [firing]. *)
Lemma firing_alerts_spec (alerts : list Alert.t) (i : nat) (alert : Alert.t) :
  (i, alert) ∈ firing_alerts alerts <->
  alerts !! i = Some alert /\ Alert.Status alert = "firing".
Proof.
  unfold firing_alerts, firing.
  rewrite list_elem_of_filter, numbered_from_lookup. cbn [snd].
  rewrite String.eqb_eq. split.
  - intros (Hstatus & n & -> & Hn). split; [exact Hn | exact Hstatus].
  - intros (Hi & Hstatus). split; [exact Hstatus | exists i; split; [lia | exact Hi]].
Qed.

(** C4. For a message that passes validation, the body is the header,
    the description and then one detail block per alert whose status is
    [firing], in the order of the alerts; a block is the separator
    line, one line per label of the alert and the start-time line.
    Alerts with another status add nothing. *)
Theorem body_details_firing_alerts_only `{R : Runtime}
    (alertMessage : Message.t) (atMobiles : list string) (isAtAll : bool)
    (description : string) :
  range_visits_all R ->
  description_of alertMessage = inr description ->
  exists envelope : DingTalkMarkdown.t,
    envelope_of alertMessage atMobiles isAtAll = inr envelope /\
    Markdown.Text (DingTalkMarkdown.Markdown envelope)
    = header_of (index (Message.CommonLabels alertMessage) "group_id")
                (Message.Status alertMessage)
      +:+ description
      +:+ text_of (flat_map detail_block (firing_alerts (Message.Alerts alertMessage))) /\
    (forall (i : nat) (alert : Alert.t),
        (i, alert) ∈ firing_alerts (Message.Alerts alertMessage) <->
        Message.Alerts alertMessage !! i = Some alert /\ Alert.Status alert = "firing") /\
    (forall (i : nat) (alert : Alert.t),
        exists lines : list string,
          detail_block (i, alert)
          = ("-----" +:+ LF) :: lines
              ++ ["- 起始时间：" +:+ time_Format (Alert.StartsAt alert) layout +:+ LF] /\
          lines ≡ₚ map label_line (map_to_list (Alert.Labels alert))).
Proof.
  intros Hrange Hd. eexists. split; [apply envelope_of_valid, Hd |].
  cbn [DingTalkMarkdown.Markdown Markdown.Text].
  split; [reflexivity | split].
  - intros i alert. apply firing_alerts_spec.
  - intros i alert. exists (label_lines i alert). split; [reflexivity |].
    unfold label_lines. apply Permutation_map, Hrange.
Qed.

Lemma body_details_firing_alerts_only_witness :
  range_visits_all (sample_runtime 200) /\
  exists envelope : DingTalkMarkdown.t,
    envelope_of (R := sample_runtime 200) metric_message [] false = inr envelope /\
    Markdown.Text (DingTalkMarkdown.Markdown envelope)
    = "## HCaaS告警" +:+ LF +:+ LF +:+ " ### 告警组：c-x7k2p:high-cpu（状态：firing)" +:+ LF +:+ LF
      +:+ LF +:+ " > The metric cpu_spike crossed the threshold" +:+ LF +:+ LF
      +:+ "-----" +:+ LF
      +:+ "- severity : critical" +:+ LF
      +:+ "- 起始时间：Oct 1, 2019 at 8:00am (UTC)" +:+ LF.
Proof.
  assert (Hrange : range_visits_all (sample_runtime 200)).
  { intros i m. reflexivity. }
  split; [exact Hrange |].
  destruct (body_details_firing_alerts_only (R := sample_runtime 200)
              metric_message [] false
              (quoted "The metric cpu_spike crossed the threshold") Hrange eq_refl)
    as (envelope & Henvelope & Htext & _).
  exists envelope. split; [exact Henvelope |].
  rewrite Htext. reflexivity.
Defined.

(** ** Delivery *)

(** C8. Once the request has been handed to the client and a response
    has come back, [SendToDingtalk] returns [nil] whatever the status
    code of the response is; a status other than 200 only adds an
    [[ERROR]] line with the response headers to the log. *)
Theorem any_response_is_success `{R : Runtime}
    (alertMessage : Message.t) (webhook : string) (atMobiles : list string)
    (isAtAll : bool) (σ : World)
    (envelope : DingTalkMarkdown.t) (data : string) (req : Request.t)
    (resp : Response.t) :
  envelope_of alertMessage atMobiles isAtAll = inr envelope ->
  json_Marshal envelope = inr data ->
  http_NewRequest "POST" webhook data = inr req ->
  client_Do (Request.Header_Set "Content-Type" "application/json" req) = inr resp ->
  exists σ' : World,
    SendToDingtalk alertMessage webhook atMobiles isAtAll σ = (inr tt, σ') /\
    outbound σ'
    = (outbound σ ++ [Request.Header_Set "Content-Type" "application/json" req])%list /\
    logged σ'
    = (logged σ
       ++ (if (Response.StatusCode resp =? 200)%Z then []
           else ["[ERROR] " +:+ fmt_Header (Response.Header resp)])
       ++ ["[INFO] Alert message sent to " +:+ webhook +:+ " successfully"])%list.
Proof.
  intros Henvelope Hdata Hreq Hresp.
  unfold SendToDingtalk, io_bind, io_try, io_ret, io_fail, http_Client_Do, log_Print.
  rewrite Henvelope, Hdata, Hreq, Hresp.
  destruct (Response.StatusCode resp =? 200)%Z; cbn [negb];
    eexists; (split; [reflexivity |]); cbn [outbound logged];
    (split; [reflexivity |]).
  - reflexivity.
  - rewrite <- app_assoc. reflexivity.
Qed.

Lemma any_response_is_success_witness :
  client_Do (Runtime := sample_runtime 503)
    (Request.Header_Set "Content-Type" "application/json"
       (Request.mk "POST" "https://oapi.dingtalk.com/robot/send" ∅
          "{title:HCaaS 告警组：c-x7k2p:high-cpu（状态：firing）}"))
  = inr (Response.mk 503 ∅) /\
  exists σ' : World,
    SendToDingtalk (R := sample_runtime 503) metric_message
      "https://oapi.dingtalk.com/robot/send" [] false quiet_world = (inr tt, σ') /\
    logged σ'
    = [ "[ERROR] map[]";
        "[INFO] Alert message sent to https://oapi.dingtalk.com/robot/send successfully" ].
Proof.
  split; [reflexivity |].
  destruct (any_response_is_success (R := sample_runtime 503) metric_message
              "https://oapi.dingtalk.com/robot/send" [] false quiet_world
              _ _ _ _ eq_refl eq_refl eq_refl eq_refl)
    as (σ' & Hrun & _ & Hlog).
  exists σ'. split; [exact Hrun | exact Hlog].
Defined.

(** A request that could not be sent is the error of the dispatch. *)
Lemma transport_error_is_returned `{R : Runtime}
    (alertMessage : Message.t) (webhook : string) (atMobiles : list string)
    (isAtAll : bool) (σ : World)
    (envelope : DingTalkMarkdown.t) (data : string) (req : Request.t) (err : error) :
  envelope_of alertMessage atMobiles isAtAll = inr envelope ->
  json_Marshal envelope = inr data ->
  http_NewRequest "POST" webhook data = inr req ->
  client_Do (Request.Header_Set "Content-Type" "application/json" req) = inl err ->
  fst (SendToDingtalk alertMessage webhook atMobiles isAtAll σ) = inl err.
Proof.
  intros Henvelope Hdata Hreq Hresp.
  unfold SendToDingtalk, io_bind, io_try, io_ret, io_fail, http_Client_Do.
  rewrite Henvelope, Hdata, Hreq, Hresp. reflexivity.
Qed.

(** ** The handler *)

(** A complete request with a valid body is forwarded and answered
    with [Alert sent successfully], also when the destination says 503. *)
Example complete_request_is_forwarded :
  ReceiveAndSend (R := decoding_runtime metric_message 503)
    ResponseWriter.fresh complete_request quiet_world
  = Returns
      (ResponseWriter.mk (Some 200) "Alert sent successfully")
      (mkWorld
         [ Request.mk "POST" "https://oapi.dingtalk.com/robot/send"
             (<["Content-Type" := "application/json"]> ∅)
             "{title:HCaaS 告警组：c-x7k2p:high-cpu（状态：firing）}" ]
         [ "[ERROR] map[]";
           "[INFO] Alert message sent to https://oapi.dingtalk.com/robot/send successfully" ]
         19).
Proof. reflexivity. Qed.

(** A body that decodes to the zero message is answered with 500 and
    the text of the validation error; nothing is sent. *)
Example undecodable_body_is_rejected :
  ReceiveAndSend (R := sample_runtime 200)
    ResponseWriter.fresh complete_request quiet_world
  = Returns
      (ResponseWriter.mk (Some 500) "alert type is null")
      (mkWorld [] ["[ERROR] alert type is null"] 19).
Proof. reflexivity. Qed.

(** C9 (as the specification words it). A request without [webhook]
    whose query does not parse is answered with status 500 and the
    text of the parse error. *)
Lemma absent_webhook_can_answer_500 :
  fst (InRequest.ParseForm unparsable_request) !! "webhook" = None /\
  ReceiveAndSend (R := sample_runtime 200) ResponseWriter.fresh unparsable_request quiet_world
  = Returns
      (ResponseWriter.mk (Some 500) ("invalid URL escape " +:+ DQ +:+ "%zz" +:+ DQ))
      (mkWorld [] [] 19).
Proof.
  split; reflexivity.
Qed.

(** C9 (amended). A request that lacks [webhook] or [isatall] makes the
    handler return without dispatching: no request goes out, and the
    outcome is the same whatever runtime the dispatcher would have run
    against.  When moreover the body has been read and the parameters
    have been parsed without error, the response writer is left as it
    was: no status is set and no body is written, so the default 200 is
    sent for a fresh one. *)
Theorem absent_parameter_never_dispatches `{R : Runtime}
    (w : ResponseWriter.t) (req : InRequest.t) (σ : World) :
  fst (InRequest.ParseForm req) !! "webhook" = None \/
  fst (InRequest.ParseForm req) !! "isatall" = None ->
  (exists (w' : ResponseWriter.t) (σ' : World),
      ReceiveAndSend w req σ = Returns w' σ' /\
      outbound σ' = outbound σ /\
      forall R' : Runtime, ReceiveAndSend (R := R') w req σ = Returns w' σ') /\
  (forall body : string,
      InRequest.Body req = inr body ->
      snd (InRequest.ParseForm req) = None ->
      exists σ' : World,
        ReceiveAndSend w req σ = Returns w σ' /\
        outbound σ' = outbound σ /\
        (w = ResponseWriter.fresh ->
         ResponseWriter.status w = None /\ ResponseWriter.body w = EmptyString /\
         ResponseWriter.status_sent w = 200)).
Proof.
  intros Habsent.
  assert (Hfresh : w = ResponseWriter.fresh ->
                   ResponseWriter.status w = None /\ ResponseWriter.body w = EmptyString /\
                   ResponseWriter.status_sent w = 200).
  { intros ->. repeat split. }
  unfold ReceiveAndSend, comma_ok.
  destruct (InRequest.ParseForm req) as [form parse_error]. cbn [fst snd] in *.
  split.
  - destruct (InRequest.Body req) as [err | body];
      [eexists _, _; split; [reflexivity | split; [reflexivity | intros R'; reflexivity]] |].
    destruct parse_error as [err |];
      [eexists _, _; split; [reflexivity | split; [reflexivity | intros R'; reflexivity]] |].
    destruct (form !! "webhook") as [urls |]; cbn [negb];
      [| eexists _, _; split; [reflexivity | split; [reflexivity | intros R'; reflexivity]]].
    destruct Habsent as [Habsent | Habsent]; [discriminate Habsent |].
    rewrite Habsent. cbn [negb].
    eexists _, _; split; [reflexivity | split; [reflexivity | intros R'; reflexivity]].
  - intros body -> ->.
    destruct (form !! "webhook") as [urls |]; cbn [negb];
      [| eexists; split; [reflexivity | split; [reflexivity | exact Hfresh]]].
    destruct Habsent as [Habsent | Habsent]; [discriminate Habsent |].
    rewrite Habsent. cbn [negb].
    eexists; split; [reflexivity | split; [reflexivity | exact Hfresh]].
Qed.

Lemma absent_parameter_never_dispatches_witness :
  fst (InRequest.ParseForm request_without_webhook) !! "webhook" = None /\
  exists σ' : World,
    ReceiveAndSend (R := sample_runtime 200) ResponseWriter.fresh
      request_without_webhook quiet_world
    = Returns ResponseWriter.fresh σ' /\
    outbound σ' = outbound quiet_world.
Proof.
  split; [reflexivity |].
  destruct (proj2 (absent_parameter_never_dispatches (R := sample_runtime 200)
                     ResponseWriter.fresh request_without_webhook quiet_world
                     (or_introl eq_refl)) "{}" eq_refl eq_refl)
    as (σ' & Hrun & Hout & _).
  exists σ'. split; [exact Hrun | exact Hout].
Defined.

(** * Further properties of the dispatcher *)

(** ** Validation, completed *)

Lemma required_keys_recognized (t : string) :
  required_keys t = None -> ~ In t recognized_alert_types.
Proof.
  intros Hkeys Hin. cbn [In recognized_alert_types] in Hin.
  repeat (destruct Hin as [<- | Hin]; [discriminate Hkeys |]).
  exact Hin.
Qed.

Lemma present_keys_pass (alertMessage : Message.t) (t : string)
    (keys : list (LabelMap * string)) :
  Message.CommonLabels alertMessage !! "alert_type" = Some t ->
  required_keys t = Some keys ->
  Forall (fun entry => is_Some (labels_of (fst entry) alertMessage !! snd entry)) keys ->
  exists line : string, description_of alertMessage = inr (quoted line).
Proof.
  intros Ht Hkeys Hall.
  destruct (String.eqb_spec t "event") as [-> | Hne].
  - injection Hkeys as <-.
    apply Forall_cons in Hall as [[event_type Hevent] Hall].
    apply Forall_cons in Hall as [[resource_kind Hkind] _].
    cbn [fst snd labels_of] in Hevent, Hkind.
    eexists. apply (event_description _ _ _ Ht Hevent Hkind).
  - destruct (description_follows_template _ _ _ Ht Hne Hkeys Hall) as (line & _ & Hd).
    exists line. exact Hd.
Qed.

(** X1. Validation passes exactly when the common labels name a
    recognized alert type and every key that type requires is present;
    the optional namespace keys play no part. *)
Theorem validation_passes_iff (alertMessage : Message.t) :
  validation_of alertMessage = None <->
  exists (t : string) (keys : list (LabelMap * string)),
    Message.CommonLabels alertMessage !! "alert_type" = Some t /\
    required_keys t = Some keys /\
    Forall (fun entry => is_Some (labels_of (fst entry) alertMessage !! snd entry)) keys.
Proof.
  unfold validation_of. split.
  - destruct (description_of alertMessage) as [err | description] eqn:Hd; [discriminate |].
    intros _.
    destruct (Message.CommonLabels alertMessage !! "alert_type") as [t |] eqn:Ht.
    2: { destruct (missing_field_rejected alertMessage (or_introl Ht)) as (? & ? & ? & H & _).
         congruence. }
    destruct (required_keys t) as [keys |] eqn:Hkeys.
    2: { pose proof (unrecognized_rejected _ _ Ht (required_keys_recognized _ Hkeys)).
         congruence. }
    exists t, keys. split; [reflexivity | split; [exact Hkeys |]].
    apply Forall_forall. intros [src k] Hin. cbn [fst snd].
    destruct (labels_of src alertMessage !! k) as [v |] eqn:Hk; [eauto |].
    apply list_elem_of_In in Hin.
    destruct (missing_field_rejected alertMessage
                (or_intror (ex_intro _ t (ex_intro _ keys (ex_intro _ src (ex_intro _ k
                   (conj Ht (conj Hkeys (conj Hin Hk)))))))))
      as (? & ? & ? & H & _).
    congruence.
  - intros (t & keys & Ht & Hkeys & Hall).
    destruct (present_keys_pass _ _ _ Ht Hkeys Hall) as (line & ->). reflexivity.
Qed.

(** X2. The checks run in the order the required keys are listed: when
    the keys before [k] are present and [k] is absent, the error is the
    one for [k], whatever holds for the keys after it. *)
Theorem first_absent_key_is_reported (alertMessage : Message.t) (t : string)
    (before after : list (LabelMap * string)) (src : LabelMap) (k : string) :
  Message.CommonLabels alertMessage !! "alert_type" = Some t ->
  required_keys t = Some (before ++ (src, k) :: after)%list ->
  Forall (fun entry => is_Some (labels_of (fst entry) alertMessage !! snd entry)) before ->
  labels_of src alertMessage !! k = None ->
  exists err : error,
    description_of alertMessage = inl err /\
    validation_kind err = Some (MissingField src k).
Proof.
  intros Ht Hkeys Hbefore Hmiss.
  remember (before ++ (src, k) :: after)%list as keys eqn:Hsplit.
  by_alert_type Hkeys; injection Hkeys as <-;
    repeat
      match goal with
      | H : _ :: _ = (?b ++ _ :: _)%list |- _ =>
          let Htail := fresh "Htail" in
          let Hx := fresh "Hx" in
          destruct b as [| [? ?] b]; cbn [app] in H;
          [ injection H as <- <- _
          | injection H as <- <- Htail;
            apply Forall_cons in Hbefore as [[? Hx] Hbefore];
            cbn [fst snd labels_of] in Hx ]
      | H : [] = (?b ++ _ :: _)%list |- _ => destruct b; discriminate H
      end;
    cbn [labels_of] in Hmiss;
    unfold_description Ht; split_lookups;
    eexists; (split; reflexivity).
Qed.

Lemma first_absent_key_is_reported_witness :
  exists err : error,
    description_of cpu_message_without_threshold = inl err /\
    validation_kind err = Some (MissingField commonLabels "cpu_threshold").
Proof.
  apply (first_absent_key_is_reported cpu_message_without_threshold "nodeCPU"
           [(groupLabels, "node_name")] [] commonLabels "cpu_threshold").
  - reflexivity.
  - reflexivity.
  - apply Forall_cons. split; [exists "worker-3"; reflexivity | apply Forall_nil_2].
  - reflexivity.
Defined.

(** X3. With every required key present, the description is a quoted
    line: for [event] it is [{event_type} event of {resource_kind}
    occuored], for each of the other nine types the sentence of its
    branch, the pod and workload names right behind their namespace
    when the group labels have one ([namespace] for the pods,
    [workload_namespace] for the workload). *)
Theorem descriptions_by_alert_type (m : Message.t) (t : string) :
  Message.CommonLabels m !! "alert_type" = Some t ->
  (t = "event" ->
   forall event_type resource_kind : string,
     Message.CommonLabels m !! "event_type" = Some event_type ->
     Message.GroupLabels m !! "resource_kind" = Some resource_kind ->
     description_of m
     = inr (quoted (event_type +:+ " event of " +:+ resource_kind +:+ " occuored"))) /\
  (t = "systemService" ->
   is_Some (Message.GroupLabels m !! "component_name") ->
   description_of m
   = inr (quoted ("The system component "
                  +:+ match Message.GroupLabels m !! "event_type" with
                      | Some event_type => event_type
                      | None => EmptyString
                      end
                  +:+ " is not running"))) /\
  (t = "nodeHealthy" ->
   forall node : string,
     Message.GroupLabels m !! "node_name" = Some node ->
     description_of m
     = inr (quoted ("The kubelet on the node " +:+ node +:+ " is not healthy"))) /\
  (t = "nodeCPU" ->
   forall node threshold : string,
     Message.GroupLabels m !! "node_name" = Some node ->
     Message.CommonLabels m !! "cpu_threshold" = Some threshold ->
     description_of m
     = inr (quoted ("The CPU usage on the node " +:+ node +:+ " is over "
                    +:+ threshold +:+ "%"))) /\
  (t = "nodeMemory" ->
   forall node threshold : string,
     Message.GroupLabels m !! "node_name" = Some node ->
     Message.CommonLabels m !! "mem_threshold" = Some threshold ->
     description_of m
     = inr (quoted ("The memory usage on the node " +:+ node +:+ " is over "
                    +:+ threshold +:+ "%"))) /\
  (t = "podNotScheduled" ->
   forall pod : string,
     Message.GroupLabels m !! "pod_name" = Some pod ->
     description_of m
     = inr (quoted ("The Pod "
                    +:+ with_namespace (Message.GroupLabels m !! "namespace") pod
                    +:+ " is not scheduled"))) /\
  (t = "podNotRunning" ->
   forall pod : string,
     Message.GroupLabels m !! "pod_name" = Some pod ->
     description_of m
     = inr (quoted ("The Pod "
                    +:+ with_namespace (Message.GroupLabels m !! "namespace") pod
                    +:+ " is not running"))) /\
  (t = "podRestarts" ->
   forall pod times interval : string,
     Message.GroupLabels m !! "pod_name" = Some pod ->
     Message.CommonLabels m !! "restart_times" = Some times ->
     Message.CommonLabels m !! "restart_interval" = Some interval ->
     description_of m
     = inr (quoted ("The Pod "
                    +:+ with_namespace (Message.GroupLabels m !! "namespace") pod
                    +:+ " restarts " +:+ times +:+ " times in " +:+ interval +:+ " sec"))) /\
  (t = "workload" ->
   forall workload percentage : string,
     Message.GroupLabels m !! "workload_name" = Some workload ->
     Message.CommonLabels m !! "available_percentage" = Some percentage ->
     description_of m
     = inr (quoted ("The workload "
                    +:+ with_namespace (Message.GroupLabels m !! "workload_namespace") workload
                    +:+ " has available replicas less than " +:+ percentage +:+ "%"))) /\
  (t = "metric" ->
   forall alert_name : string,
     Message.CommonLabels m !! "alert_name" = Some alert_name ->
     description_of m
     = inr (quoted ("The metric " +:+ alert_name +:+ " crossed the threshold"))).
Proof.
  intros Ht.
  repeat split; intros ->; intros;
    repeat match goal with H : is_Some _ |- _ => destruct H end;
    unfold with_namespace; unfold_description Ht; unfold index;
    split_lookups; solve_quoted.
Qed.

Lemma descriptions_by_alert_type_witness :
  description_of workload_message
  = inr (quoted "The workload prodapi has available replicas less than 50%").
Proof.
  assert (Hall := descriptions_by_alert_type workload_message "workload" eq_refl).
  exact (proj1 (proj2 (proj2 (proj2 (proj2 (proj2 (proj2 (proj2 (proj2 Hall))))))))
           eq_refl "api" "50" eq_refl eq_refl).
Defined.

(** ** Rendering, completed *)

Lemma no_firing_alert (alerts : list Alert.t) :
  Forall (fun alert => Alert.Status alert <> "firing") alerts ->
  firing_alerts alerts = [].
Proof.
  intros Hnone.
  destruct (firing_alerts alerts) as [| [i alert] rest] eqn:Hfiring; [reflexivity |].
  assert (Hin : (i, alert) ∈ firing_alerts alerts) by (rewrite Hfiring; left).
  apply firing_alerts_spec in Hin as [Hi Hstatus].
  rewrite Forall_lookup in Hnone. destruct (Hnone i alert Hi Hstatus).
Qed.

(** X4. When no alert of the message has the status [firing] (none at
    all, or only resolved ones) the body is the header followed by the
    description, and nothing else. *)
Theorem body_without_firing_alerts `{R : Runtime}
    (alertMessage : Message.t) (atMobiles : list string) (isAtAll : bool)
    (description : string) :
  description_of alertMessage = inr description ->
  Forall (fun alert => Alert.Status alert <> "firing") (Message.Alerts alertMessage) ->
  exists envelope : DingTalkMarkdown.t,
    envelope_of alertMessage atMobiles isAtAll = inr envelope /\
    Markdown.Text (DingTalkMarkdown.Markdown envelope)
    = header_of (index (Message.CommonLabels alertMessage) "group_id")
                (Message.Status alertMessage)
      +:+ description.
Proof.
  intros Hd Hnone. eexists. split; [apply envelope_of_valid, Hd |].
  cbn [DingTalkMarkdown.Markdown Markdown.Text].
  rewrite (no_firing_alert _ Hnone). cbn [flat_map text_of fold_right].
  rewrite string_app_nil_r. reflexivity.
Qed.

Lemma body_without_firing_alerts_witness :
  exists envelope : DingTalkMarkdown.t,
    envelope_of (R := sample_runtime 200) resolved_message [] false = inr envelope /\
    Markdown.Text (DingTalkMarkdown.Markdown envelope)
    = header_of EmptyString "firing" +:+ quoted "The metric cpu_spike crossed the threshold".
Proof.
  apply (body_without_firing_alerts (R := sample_runtime 200) resolved_message [] false).
  - reflexivity.
  - apply Forall_cons. split; [discriminate |].
    apply Forall_cons. split; [discriminate | apply Forall_nil_2].
Defined.

Lemma range_alerts_same_detail (R1 R2 : Runtime) (alerts1 alerts2 : list Alert.t) :
  (forall (t : time_Time) (l : string),
      time_Format (Runtime := R1) t l = time_Format (Runtime := R2) t l) ->
  (forall (i : nat) (m : gmap string string),
      range_order (Runtime := R1) i m = range_order (Runtime := R2) i m) ->
  Forall2 same_detail alerts1 alerts2 ->
  forall (i : nat) (message : string),
    range_alerts (R := R1) i alerts1 message = range_alerts (R := R2) i alerts2 message.
Proof.
  intros Hformat Horder.
  induction 1 as [| a b rest1 rest2 (Hstatus & Hlabels & Hstart) _ IH];
    intros i message; cbn [range_alerts]; [reflexivity |].
  rewrite Hstatus, Hlabels, Hstart, Hformat, Horder, !IH. reflexivity.
Qed.

Lemma blocks_same_detail (R1 R2 : Runtime) (alerts1 alerts2 : list Alert.t) :
  (forall (t : time_Time) (l : string),
      time_Format (Runtime := R1) t l = time_Format (Runtime := R2) t l) ->
  range_visits_all R1 ->
  range_visits_all R2 ->
  Forall2 same_detail alerts1 alerts2 ->
  forall i : nat,
    Forall2 same_block
      (map (detail_block (R := R1))
         (filter (fun entry => firing (snd entry) = true) (numbered_from i alerts1)))
      (map (detail_block (R := R2))
         (filter (fun entry => firing (snd entry) = true) (numbered_from i alerts2))).
Proof.
  intros Hformat Hvisits1 Hvisits2.
  induction 1 as [| a b rest1 rest2 (Hstatus & Hlabels & Hstart) _ IH];
    intros i; cbn [numbered_from]; [apply Forall2_nil_2 |].
  assert (Hfiring : firing a = firing b) by (unfold firing; rewrite Hstatus; reflexivity).
  destruct (firing b) eqn:Hb.
  - rewrite !filter_cons_True by (cbn [snd]; congruence).
    cbn [map]. apply Forall2_cons. split; [| apply IH].
    exists (label_lines (R := R1) i a), (label_lines (R := R2) i b),
      ("- 起始时间：" +:+ time_Format (Runtime := R2) (Alert.StartsAt b) layout +:+ LF).
    split; [cbn [detail_block]; rewrite Hformat, Hstart; reflexivity |].
    split; [reflexivity |].
    unfold label_lines. rewrite Hlabels.
    apply Permutation_map. rewrite (Hvisits1 i), (Hvisits2 i). reflexivity.
  - rewrite !filter_cons_False by (cbn [snd]; congruence). apply IH.
Qed.

(** X5. The envelope is made from the two label maps, the overall
    status and, per alert, its status, labels and start time.  Two
    messages that agree on these fail validation with the same error,
    or get envelopes with the same message type, mention directive and
    title, whose bodies are the same header and description followed by
    the same detail blocks up to the order of the label lines inside a
    block; the envelopes are equal when both runs iterate the label
    maps in the same order.  The version, group key, receiver, common
    annotations and external URL of the message, and the annotations,
    end time and generator URL of its alerts, never reach the
    notification. *)
Theorem envelope_reads_labels_status_alerts (R1 R2 : Runtime)
    (m1 m2 : Message.t) (atMobiles : list string) (isAtAll : bool) :
  (forall (t : time_Time) (l : string),
      time_Format (Runtime := R1) t l = time_Format (Runtime := R2) t l) ->
  range_visits_all R1 ->
  range_visits_all R2 ->
  Message.CommonLabels m1 = Message.CommonLabels m2 ->
  Message.GroupLabels m1 = Message.GroupLabels m2 ->
  Message.Status m1 = Message.Status m2 ->
  Forall2 same_detail (Message.Alerts m1) (Message.Alerts m2) ->
  (forall err : error,
      envelope_of (R := R1) m1 atMobiles isAtAll = inl err <->
      envelope_of (R := R2) m2 atMobiles isAtAll = inl err) /\
  (forall e1 e2 : DingTalkMarkdown.t,
      envelope_of (R := R1) m1 atMobiles isAtAll = inr e1 ->
      envelope_of (R := R2) m2 atMobiles isAtAll = inr e2 ->
      DingTalkMarkdown.MsgType e1 = DingTalkMarkdown.MsgType e2 /\
      DingTalkMarkdown.At e1 = DingTalkMarkdown.At e2 /\
      Markdown.Title (DingTalkMarkdown.Markdown e1)
      = Markdown.Title (DingTalkMarkdown.Markdown e2) /\
      exists (description : string) (blocks1 blocks2 : list (list string)),
        description_of m1 = inr description /\
        description_of m2 = inr description /\
        Markdown.Text (DingTalkMarkdown.Markdown e1)
        = header_of (index (Message.CommonLabels m1) "group_id") (Message.Status m1)
          +:+ description +:+ text_of (concat blocks1) /\
        Markdown.Text (DingTalkMarkdown.Markdown e2)
        = header_of (index (Message.CommonLabels m1) "group_id") (Message.Status m1)
          +:+ description +:+ text_of (concat blocks2) /\
        Forall2 same_block blocks1 blocks2) /\
  ((forall (i : nat) (m : gmap string string),
       range_order (Runtime := R1) i m = range_order (Runtime := R2) i m) ->
   envelope_of (R := R1) m1 atMobiles isAtAll = envelope_of (R := R2) m2 atMobiles isAtAll).
Proof.
  intros Hformat Hvisits1 Hvisits2 Hcommon Hgroup Hstatus Halerts.
  assert (Hd : description_of m1 = description_of m2).
  { unfold description_of. rewrite Hcommon, Hgroup. reflexivity. }
  split; [| split].
  - intros err. unfold envelope_of. rewrite Hd.
    destruct (description_of m2) as [err' | description]; [reflexivity |].
    split; discriminate.
  - intros e1 e2 He1 He2.
    destruct (description_of m2) as [err | description] eqn:Hd2.
    { unfold envelope_of in He2. rewrite Hd2 in He2. discriminate He2. }
    rewrite (envelope_of_valid (R := R1) m1 atMobiles isAtAll description Hd) in He1.
    rewrite (envelope_of_valid (R := R2) m2 atMobiles isAtAll description Hd2) in He2.
    injection He1 as <-. injection He2 as <-.
    cbn [DingTalkMarkdown.MsgType DingTalkMarkdown.At DingTalkMarkdown.Markdown
         Markdown.Title Markdown.Text].
    rewrite <- Hcommon, <- Hstatus.
    split; [reflexivity | split; [reflexivity | split; [reflexivity |]]].
    eexists description, _, _.
    split; [exact Hd | split; [reflexivity |]].
    unfold firing_alerts. rewrite !flat_map_concat_map.
    split; [reflexivity | split; [reflexivity |]].
    apply (blocks_same_detail R1 R2 _ _ Hformat Hvisits1 Hvisits2 Halerts).
  - intros Horder. unfold envelope_of. rewrite Hd, Hcommon, Hstatus.
    destruct (description_of m2) as [err | description]; [reflexivity |].
    rewrite (range_alerts_same_detail R1 R2 _ _ Hformat Horder Halerts). reflexivity.
Qed.

Lemma envelope_reads_labels_status_alerts_witness :
  exists e1 e2 : DingTalkMarkdown.t,
    envelope_of (R := sample_runtime 200) node_alert_message ["13800000000"] true = inr e1 /\
    envelope_of (R := reversed_runtime) annotated_node_alert_message ["13800000000"] true
    = inr e2 /\
    DingTalkMarkdown.At e1 = DingTalkMarkdown.At e2 /\
    Markdown.Title (DingTalkMarkdown.Markdown e1)
    = Markdown.Title (DingTalkMarkdown.Markdown e2).
Proof.
  eexists _, _. split; [reflexivity | split; [reflexivity |]].
  destruct (envelope_reads_labels_status_alerts (sample_runtime 200) reversed_runtime
              node_alert_message annotated_node_alert_message ["13800000000"] true)
    as (_ & Hsame & _).
  - intros t l. reflexivity.
  - intros i m. reflexivity.
  - intros i m. symmetry. apply Permutation_rev.
  - reflexivity.
  - reflexivity.
  - reflexivity.
  - apply Forall2_cons. split; [repeat split | apply Forall2_nil_2].
  - destruct (Hsame _ _ eq_refl eq_refl) as (_ & Hat & Htitle & _).
    split; [exact Hat | exact Htitle].
Defined.

(** The two runs of the sample above do differ: the label lines come
    in opposite orders. *)
Example iteration_order_shows_in_the_body :
  envelope_of (R := sample_runtime 200) node_alert_message [] false
  <> envelope_of (R := reversed_runtime) annotated_node_alert_message [] false.
Proof.
  intros H. vm_compute in H. discriminate H.
Qed.

(** ** The ways a dispatch can end *)

Section Outcomes.
Context `{R : Runtime}.

(** The five ways out of [SendToDingtalk]: four early returns with an
    error (lines 61-161, 191, 196, 209) and the return of line 218. *)
Lemma SendToDingtalk_cases (alertMessage : Message.t) (webhook : string)
    (atMobiles : list string) (isAtAll : bool) (σ : World) :
  (exists err : error,
      envelope_of alertMessage atMobiles isAtAll = inl err /\
      SendToDingtalk alertMessage webhook atMobiles isAtAll σ = (inl err, σ)) \/
  (exists (envelope : DingTalkMarkdown.t) (err : error),
      envelope_of alertMessage atMobiles isAtAll = inr envelope /\
      json_Marshal envelope = inl err /\
      SendToDingtalk alertMessage webhook atMobiles isAtAll σ = (inl err, σ)) \/
  (exists (envelope : DingTalkMarkdown.t) (data : string) (err : error),
      envelope_of alertMessage atMobiles isAtAll = inr envelope /\
      json_Marshal envelope = inr data /\
      http_NewRequest "POST" webhook data = inl err /\
      SendToDingtalk alertMessage webhook atMobiles isAtAll σ = (inl err, σ)) \/
  (exists (envelope : DingTalkMarkdown.t) (data : string) (req : Request.t) (err : error),
      envelope_of alertMessage atMobiles isAtAll = inr envelope /\
      json_Marshal envelope = inr data /\
      http_NewRequest "POST" webhook data = inr req /\
      client_Do (json_post req) = inl err /\
      SendToDingtalk alertMessage webhook atMobiles isAtAll σ
      = (inl err, with_sent (json_post req) σ)) \/
  (exists (envelope : DingTalkMarkdown.t) (data : string) (req : Request.t)
          (resp : Response.t),
      envelope_of alertMessage atMobiles isAtAll = inr envelope /\
      json_Marshal envelope = inr data /\
      http_NewRequest "POST" webhook data = inr req /\
      client_Do (json_post req) = inr resp /\
      exists σ' : World,
        SendToDingtalk alertMessage webhook atMobiles isAtAll σ = (inr tt, σ') /\
        outbound σ' = (outbound σ ++ [json_post req])%list /\
        log_flags σ' = log_flags σ /\
        logged σ'
        = (logged σ
           ++ (if (Response.StatusCode resp =? 200)%Z then []
               else ["[ERROR] " +:+ fmt_Header (Response.Header resp)])
           ++ ["[INFO] Alert message sent to " +:+ webhook +:+ " successfully"])%list).
Proof.
  unfold SendToDingtalk, io_bind, io_try, io_ret, io_fail, http_Client_Do, log_Print,
    json_post, with_sent.
  destruct (envelope_of alertMessage atMobiles isAtAll) as [err | envelope];
    [left; eauto |].
  destruct (json_Marshal envelope) as [err | data] eqn:Hdata;
    [right; left; eauto 6 |].
  destruct (http_NewRequest "POST" webhook data) as [err | req] eqn:Hreq;
    [right; right; left; eauto 8 |].
  destruct (client_Do (Request.Header_Set "Content-Type" "application/json" req))
    as [err | resp] eqn:Hresp;
    [right; right; right; left; exists envelope, data, req, err; auto 6 |].
  right; right; right; right. exists envelope, data, req, resp.
  repeat (split; [reflexivity || assumption |]).
  destruct (Response.StatusCode resp =? 200)%Z; cbn [negb];
    eexists; (split; [reflexivity |]); cbn [outbound logged log_flags];
    repeat (split; [reflexivity |]).
  - reflexivity.
  - rewrite <- app_assoc. reflexivity.
Qed.

(** X6. [SendToDingtalk] returns [nil] exactly when the message passes
    validation, the envelope is marshalled, the request is built and
    the client gets a response: nothing else, and in particular not the
    status of that response, decides it. *)
Theorem dispatch_succeeds_iff (alertMessage : Message.t) (webhook : string)
    (atMobiles : list string) (isAtAll : bool) (σ : World) :
  fst (SendToDingtalk alertMessage webhook atMobiles isAtAll σ) = inr tt <->
  exists (envelope : DingTalkMarkdown.t) (data : string) (req : Request.t)
         (resp : Response.t),
    envelope_of alertMessage atMobiles isAtAll = inr envelope /\
    json_Marshal envelope = inr data /\
    http_NewRequest "POST" webhook data = inr req /\
    client_Do (json_post req) = inr resp.
Proof.
  destruct (SendToDingtalk_cases alertMessage webhook atMobiles isAtAll σ)
    as [(err & He & Hrun)
       | [(envelope & err & He & Hm & Hrun)
         | [(envelope & data & err & He & Hm & Hn & Hrun)
           | [(envelope & data & req & err & He & Hm & Hn & Hc & Hrun)
             | (envelope & data & req & resp & He & Hm & Hn & Hc & σ' & Hrun & _)]]]];
    rewrite Hrun; cbn [fst]; split;
    try discriminate; try (intros _; eauto 8; fail);
    intros (envelope' & data' & req' & resp' & He' & Hm' & Hn' & Hc'); exfalso;
    congruence.
Qed.

(** X7. A dispatch that returns an error has written nothing to the
    log; it has either left the world as it was, or handed exactly one
    request to the client, and then the error is the client's. *)
Theorem failed_dispatch_is_silent (alertMessage : Message.t) (webhook : string)
    (atMobiles : list string) (isAtAll : bool) (σ σ' : World) (err : error) :
  SendToDingtalk alertMessage webhook atMobiles isAtAll σ = (inl err, σ') ->
  logged σ' = logged σ /\
  log_flags σ' = log_flags σ /\
  (σ' = σ \/
   exists req : Request.t,
     outbound σ' = (outbound σ ++ [req])%list /\ client_Do req = inl err).
Proof.
  intros Hrun.
  destruct (SendToDingtalk_cases alertMessage webhook atMobiles isAtAll σ)
    as [(err0 & He & Hrun0)
       | [(envelope & err0 & He & Hm & Hrun0)
         | [(envelope & data & err0 & He & Hm & Hn & Hrun0)
           | [(envelope & data & req & err0 & He & Hm & Hn & Hc & Hrun0)
             | (envelope & data & req & resp & He & Hm & Hn & Hc & σ0 & Hrun0 & _)]]]];
    rewrite Hrun0 in Hrun; try discriminate Hrun;
    injection Hrun as <- <-; auto.
  cbn [with_sent logged log_flags outbound]. eauto 6.
Qed.

(** X8. Whatever the outcome, at most one request leaves, and it is
    the one [http.NewRequest] built for the method POST, the given
    webhook and the marshalled envelope, with the header
    [Content-Type: application/json] set on it. *)
Theorem dispatch_posts_json_once (alertMessage : Message.t) (webhook : string)
    (atMobiles : list string) (isAtAll : bool) (σ : World) :
  let σ' := snd (SendToDingtalk alertMessage webhook atMobiles isAtAll σ) in
  outbound σ' = outbound σ \/
  exists (envelope : DingTalkMarkdown.t) (data : string) (req : Request.t),
    envelope_of alertMessage atMobiles isAtAll = inr envelope /\
    json_Marshal envelope = inr data /\
    http_NewRequest "POST" webhook data = inr req /\
    outbound σ' = (outbound σ ++ [json_post req])%list /\
    Request.Header (json_post req) !! "Content-Type" = Some "application/json" /\
    Request.Method (json_post req) = Request.Method req /\
    Request.URL (json_post req) = Request.URL req /\
    Request.Body (json_post req) = Request.Body req.
Proof.
  cbv zeta.
  destruct (SendToDingtalk_cases alertMessage webhook atMobiles isAtAll σ)
    as [(err0 & He & Hrun0)
       | [(envelope & err0 & He & Hm & Hrun0)
         | [(envelope & data & err0 & He & Hm & Hn & Hrun0)
           | [(envelope & data & req & err0 & He & Hm & Hn & Hc & Hrun0)
             | (envelope & data & req & resp & He & Hm & Hn & Hc & σ0 & Hrun0 & Hout & _)]]]];
    rewrite Hrun0; cbn [snd]; auto;
    right; exists envelope, data, req;
    (split; [exact He | split; [exact Hm | split; [exact Hn |]]]);
    (split; [first [exact Hout | reflexivity] |]);
    (split; [apply lookup_insert_eq | auto]).
Qed.

End Outcomes.

Lemma failed_dispatch_is_silent_witness :
  exists req : Request.t,
    outbound (snd (SendToDingtalk (R := unreachable_runtime) metric_message
                     "https://oapi.dingtalk.com/robot/send" [] false quiet_world))
    = [req] /\
    client_Do (Runtime := unreachable_runtime) req = inl "dial tcp: connection refused".
Proof.
  destruct (failed_dispatch_is_silent (R := unreachable_runtime) metric_message
              "https://oapi.dingtalk.com/robot/send" [] false quiet_world
              _ _ eq_refl)
    as (_ & _ & [Hsame | (req & Hout & Herr)]).
  - discriminate Hsame.
  - exists req. split; [exact Hout | exact Herr].
Defined.

(** * Further properties of the handler *)

Section Answers.
Context `{R : Runtime}.

(** What a dispatch does to the world, whatever its result. *)
Lemma SendToDingtalk_effects (alertMessage : Message.t) (webhook : string)
    (atMobiles : list string) (isAtAll : bool) (σ σ' : World) (r : error + unit) :
  SendToDingtalk alertMessage webhook atMobiles isAtAll σ = (r, σ') ->
  log_flags σ' = log_flags σ /\
  (outbound σ' = outbound σ \/ exists req : Request.t, outbound σ' = (outbound σ ++ [req])%list) /\
  (r = inr tt -> exists req : Request.t, outbound σ' = (outbound σ ++ [req])%list).
Proof.
  intros Hrun.
  destruct (SendToDingtalk_cases alertMessage webhook atMobiles isAtAll σ)
    as [(err0 & He & Hrun0)
       | [(envelope & err0 & He & Hm & Hrun0)
         | [(envelope & data & err0 & He & Hm & Hn & Hrun0)
           | [(envelope & data & req & err0 & He & Hm & Hn & Hc & Hrun0)
             | (envelope & data & req & resp & He & Hm & Hn & Hc & σ0 & Hrun0
                & Hout & Hflags & _)]]]];
    rewrite Hrun0 in Hrun; injection Hrun as <- <-;
    try (split; [reflexivity | split; [left; reflexivity | discriminate]]).
  - split; [reflexivity | split; [right; eexists; reflexivity | discriminate]].
  - split; [exact Hflags | split; [right | intros _]; eauto].
Qed.

(** Lines 250-262, once both parameters have a first value. *)
Lemma ReceiveAndSend_dispatches (w : ResponseWriter.t) (req : InRequest.t) (σ : World)
    (body : string) (form : gmap string (list string))
    (webhook text : string) (urls texts : list string) :
  InRequest.Body req = inr body ->
  InRequest.ParseForm req = (form, None) ->
  form !! "webhook" = Some (webhook :: urls) ->
  form !! "isatall" = Some (text :: texts) ->
  ReceiveAndSend w req σ
  = match SendToDingtalk (fst (json_Unmarshal body Message.zero)) webhook
            (default [] (form !! "atmobiles")) (fst (strconv_ParseBool text))
            (with_flags σ) with
    | (inl err, σ') =>
        Returns (ResponseWriter.Fprint err
                   (ResponseWriter.WriteHeader StatusInternalServerError w))
                (with_line ("[ERROR] " +:+ err) σ')
    | (inr _, σ') => Returns (ResponseWriter.Fprint "Alert sent successfully" w) σ'
    end.
Proof.
  intros Hbody Hform Hwebhook Hisatall.
  unfold ReceiveAndSend. rewrite Hbody, Hform. unfold comma_ok.
  rewrite Hwebhook, Hisatall. reflexivity.
Qed.

(** X9. The handler panics in one situation only: the body was read,
    the parameters were parsed, both [webhook] and [isatall] are in the
    form, and one of the two has no value to take the first of. *)
Theorem handler_panics_iff (w : ResponseWriter.t) (req : InRequest.t) (σ : World) :
  ReceiveAndSend w req σ = Panics <->
  exists (body : string) (form : gmap string (list string)),
    InRequest.Body req = inr body /\
    InRequest.ParseForm req = (form, None) /\
    ((form !! "webhook" = Some [] /\ is_Some (form !! "isatall")) \/
     (is_Some (form !! "webhook") /\ form !! "isatall" = Some [])).
Proof.
  unfold ReceiveAndSend, comma_ok.
  destruct (InRequest.Body req) as [err | body].
  { split; [discriminate | intros (? & ? & H & _); discriminate H]. }
  destruct (InRequest.ParseForm req) as [form [err |]].
  { split; [discriminate | intros (? & ? & _ & H & _); discriminate H]. }
  destruct (form !! "webhook") as [[| webhook urls] |] eqn:Hwebhook;
    destruct (form !! "isatall") as [[| text texts] |] eqn:Hisatall;
    cbn [negb default from_option id first_of head];
    try destruct (SendToDingtalk _ _ _ _ _) as [[err | []] σ'];
    (split;
     [ try discriminate; intros _; exists body, form;
       (split; [reflexivity | split; [reflexivity |]]);
       rewrite ?Hwebhook, ?Hisatall; eauto
     | try (intros _; reflexivity);
       intros (body' & form' & _ & [= <-] & [[H1 [v H2]] | [[v H1] H2]]);
       rewrite Hwebhook in H1; rewrite Hisatall in H2; congruence ]).
Qed.

(** X10. What a fresh response gets when the handler returns: nothing
    at all (the silent return, nothing sent), status 500 with an error
    text, or status 200 with [Alert sent successfully] after exactly
    one request has left.  The logger's flags are set in every case,
    and never more than one request leaves. *)
Theorem handler_answers (req : InRequest.t) (σ σ' : World) (w' : ResponseWriter.t) :
  ReceiveAndSend ResponseWriter.fresh req σ = Returns w' σ' ->
  log_flags σ' = Z.lor LstdFlags Lshortfile /\
  ((w' = ResponseWriter.fresh /\ outbound σ' = outbound σ) \/
   (exists err : error,
       w' = ResponseWriter.mk (Some StatusInternalServerError) err /\
       (outbound σ' = outbound σ \/
        exists sent : Request.t, outbound σ' = (outbound σ ++ [sent])%list)) \/
   (w' = ResponseWriter.mk (Some 200) "Alert sent successfully" /\
    exists sent : Request.t, outbound σ' = (outbound σ ++ [sent])%list)).
Proof.
  unfold ReceiveAndSend, comma_ok.
  destruct (InRequest.Body req) as [err | body].
  { intros [= <- <-]. split; [reflexivity |]. right; left. eauto. }
  destruct (InRequest.ParseForm req) as [form [err |]].
  { intros [= <- <-]. split; [reflexivity |]. right; left. eauto. }
  destruct (form !! "webhook") as [[| webhook urls] |];
    destruct (form !! "isatall") as [[| text texts] |];
    cbn [negb default from_option id first_of head];
    try discriminate;
    try (intros [= <- <-]; split; [reflexivity |]; left; split; reflexivity).
  destruct (SendToDingtalk _ _ _ _ _) as [[err | []] σ0] eqn:Hrun;
    apply SendToDingtalk_effects in Hrun as (Hflags & Hout & Hsent);
    intros [= <- <-]; cbn [log_Print snd log_flags outbound].
  - split; [exact Hflags |]. right; left. exists err. split; [reflexivity | exact Hout].
  - split; [exact Hflags |]. right; right. split; [reflexivity | apply Hsent; reflexivity].
Qed.

End Answers.

Lemma handler_answers_witness :
  ReceiveAndSend (R := decoding_runtime metric_message 503)
    ResponseWriter.fresh complete_request quiet_world
  = Returns
      (ResponseWriter.mk (Some 200) "Alert sent successfully")
      (mkWorld
         [ json_post (Request.mk "POST" "https://oapi.dingtalk.com/robot/send" ∅
                        "{title:HCaaS 告警组：c-x7k2p:high-cpu（状态：firing）}") ]
         [ "[ERROR] map[]";
           "[INFO] Alert message sent to https://oapi.dingtalk.com/robot/send successfully" ]
         19) /\
  log_flags
    (mkWorld
       [ json_post (Request.mk "POST" "https://oapi.dingtalk.com/robot/send" ∅
                      "{title:HCaaS 告警组：c-x7k2p:high-cpu（状态：firing）}") ]
       [ "[ERROR] map[]";
         "[INFO] Alert message sent to https://oapi.dingtalk.com/robot/send successfully" ]
       19)
  = Z.lor LstdFlags Lshortfile.
Proof.
  split; [reflexivity |].
  exact (proj1 (handler_answers (R := decoding_runtime metric_message 503)
                  complete_request quiet_world _ _ eq_refl)).
Defined.

Section EndToEnd.
Context `{R : Runtime}.

Lemma SendToDingtalk_delivered (alertMessage : Message.t) (webhook : string)
    (atMobiles : list string) (isAtAll : bool) (σ : World)
    (envelope : DingTalkMarkdown.t) (data : string) (sent : Request.t)
    (resp : Response.t) :
  envelope_of alertMessage atMobiles isAtAll = inr envelope ->
  json_Marshal envelope = inr data ->
  http_NewRequest "POST" webhook data = inr sent ->
  client_Do (json_post sent) = inr resp ->
  SendToDingtalk alertMessage webhook atMobiles isAtAll σ
  = (inr tt,
     mkWorld (outbound σ ++ [json_post sent])
       (logged σ
        ++ (if (Response.StatusCode resp =? 200)%Z then []
            else ["[ERROR] " +:+ fmt_Header (Response.Header resp)])
        ++ ["[INFO] Alert message sent to " +:+ webhook +:+ " successfully"])
       (log_flags σ)).
Proof.
  intros Henvelope Hdata Hsent Hresp.
  unfold SendToDingtalk, io_bind, io_try, io_ret, io_fail, http_Client_Do, log_Print.
  unfold json_post in Hresp. rewrite Henvelope, Hdata, Hsent, Hresp.
  destruct (Response.StatusCode resp =? 200)%Z; cbn [negb outbound logged log_flags].
  - reflexivity.
  - rewrite <- app_assoc. reflexivity.
Qed.

Lemma SendToDingtalk_undelivered (alertMessage : Message.t) (webhook : string)
    (atMobiles : list string) (isAtAll : bool) (σ : World)
    (envelope : DingTalkMarkdown.t) (data : string) (sent : Request.t) (err : error) :
  envelope_of alertMessage atMobiles isAtAll = inr envelope ->
  json_Marshal envelope = inr data ->
  http_NewRequest "POST" webhook data = inr sent ->
  client_Do (json_post sent) = inl err ->
  SendToDingtalk alertMessage webhook atMobiles isAtAll σ
  = (inl err, with_sent (json_post sent) σ).
Proof.
  intros Henvelope Hdata Hsent Hresp.
  unfold SendToDingtalk, io_bind, io_try, io_ret, io_fail, http_Client_Do.
  unfold json_post in Hresp. rewrite Henvelope, Hdata, Hsent, Hresp. reflexivity.
Qed.

(** X11. A request with both parameters whose decoded body fails
    validation is answered with status 500 and the text of the
    validation error; the error is logged and nothing is sent. *)
Theorem invalid_message_answers_500 (req : InRequest.t) (σ : World)
    (body : string) (form : gmap string (list string))
    (webhook text : string) (urls texts : list string) (err : error) :
  InRequest.Body req = inr body ->
  InRequest.ParseForm req = (form, None) ->
  form !! "webhook" = Some (webhook :: urls) ->
  form !! "isatall" = Some (text :: texts) ->
  description_of (fst (json_Unmarshal body Message.zero)) = inl err ->
  ReceiveAndSend ResponseWriter.fresh req σ
  = Returns (ResponseWriter.mk (Some StatusInternalServerError) err)
      (mkWorld (outbound σ) (logged σ ++ ["[ERROR] " +:+ err])
         (Z.lor LstdFlags Lshortfile)).
Proof.
  intros Hbody Hform Hwebhook Hisatall Hd.
  rewrite (ReceiveAndSend_dispatches _ _ _ _ _ _ _ _ _ Hbody Hform Hwebhook Hisatall).
  rewrite (SendToDingtalk_invalid _ _ _ _ _ _ Hd). reflexivity.
Qed.

(** X12. A body the decoder can make nothing of (it leaves the zero
    message) does not stop the handler before validation: the request
    is answered with status 500 and [alert type is null]. *)
Theorem undecoded_body_lacks_alert_type (req : InRequest.t) (σ : World)
    (body : string) (form : gmap string (list string))
    (webhook text : string) (urls texts : list string) :
  InRequest.Body req = inr body ->
  InRequest.ParseForm req = (form, None) ->
  form !! "webhook" = Some (webhook :: urls) ->
  form !! "isatall" = Some (text :: texts) ->
  fst (json_Unmarshal body Message.zero) = Message.zero ->
  ReceiveAndSend ResponseWriter.fresh req σ
  = Returns (ResponseWriter.mk (Some StatusInternalServerError) "alert type is null")
      (mkWorld (outbound σ) (logged σ ++ ["[ERROR] alert type is null"])
         (Z.lor LstdFlags Lshortfile)).
Proof.
  intros Hbody Hform Hwebhook Hisatall Hzero.
  rewrite (ReceiveAndSend_dispatches _ _ _ _ _ _ _ _ _ Hbody Hform Hwebhook Hisatall).
  rewrite Hzero.
  rewrite (SendToDingtalk_invalid Message.zero _ _ _ _ "alert type is null" eq_refl).
  reflexivity.
Qed.

(** X13. When the destination cannot be reached, the request counts as
    sent, and the inbound request is answered with status 500 and the
    client's error, which is also logged. *)
Theorem unreachable_destination_answers_500 (req : InRequest.t) (σ : World)
    (body : string) (form : gmap string (list string))
    (webhook text : string) (urls texts : list string)
    (envelope : DingTalkMarkdown.t) (data : string) (sent : Request.t) (err : error) :
  InRequest.Body req = inr body ->
  InRequest.ParseForm req = (form, None) ->
  form !! "webhook" = Some (webhook :: urls) ->
  form !! "isatall" = Some (text :: texts) ->
  envelope_of (fst (json_Unmarshal body Message.zero))
    (default [] (form !! "atmobiles")) (fst (strconv_ParseBool text)) = inr envelope ->
  json_Marshal envelope = inr data ->
  http_NewRequest "POST" webhook data = inr sent ->
  client_Do (json_post sent) = inl err ->
  ReceiveAndSend ResponseWriter.fresh req σ
  = Returns (ResponseWriter.mk (Some StatusInternalServerError) err)
      (mkWorld (outbound σ ++ [json_post sent]) (logged σ ++ ["[ERROR] " +:+ err])
         (Z.lor LstdFlags Lshortfile)).
Proof.
  intros Hbody Hform Hwebhook Hisatall Henvelope Hdata Hsent Hresp.
  rewrite (ReceiveAndSend_dispatches _ _ _ _ _ _ _ _ _ Hbody Hform Hwebhook Hisatall).
  rewrite (SendToDingtalk_undelivered _ _ _ _ _ _ _ _ _ Henvelope Hdata Hsent Hresp).
  reflexivity.
Qed.

(** X14. A request with both parameters and a valid body is forwarded
    to the first [webhook] value, mentioning every [atmobiles] value and
    everyone when [isatall] parses to true, and is answered with status
    200 and [Alert sent successfully] whatever status the destination
    gave; that status only decides whether an [[ERROR]] line is
    logged before the [[INFO]] line. *)
Theorem complete_request_answers_200 (req : InRequest.t) (σ : World)
    (body : string) (form : gmap string (list string))
    (webhook text : string) (urls texts : list string)
    (envelope : DingTalkMarkdown.t) (data : string) (sent : Request.t)
    (resp : Response.t) :
  InRequest.Body req = inr body ->
  InRequest.ParseForm req = (form, None) ->
  form !! "webhook" = Some (webhook :: urls) ->
  form !! "isatall" = Some (text :: texts) ->
  envelope_of (fst (json_Unmarshal body Message.zero))
    (default [] (form !! "atmobiles")) (fst (strconv_ParseBool text)) = inr envelope ->
  json_Marshal envelope = inr data ->
  http_NewRequest "POST" webhook data = inr sent ->
  client_Do (json_post sent) = inr resp ->
  ReceiveAndSend ResponseWriter.fresh req σ
  = Returns (ResponseWriter.mk (Some 200) "Alert sent successfully")
      (mkWorld (outbound σ ++ [json_post sent])
         (logged σ
          ++ (if (Response.StatusCode resp =? 200)%Z then []
              else ["[ERROR] " +:+ fmt_Header (Response.Header resp)])
          ++ ["[INFO] Alert message sent to " +:+ webhook +:+ " successfully"])
         (Z.lor LstdFlags Lshortfile)) /\
  At.AtMobiles (DingTalkMarkdown.At envelope) = default [] (form !! "atmobiles") /\
  At.IsAtAll (DingTalkMarkdown.At envelope) = fst (strconv_ParseBool text).
Proof.
  intros Hbody Hform Hwebhook Hisatall Henvelope Hdata Hsent Hresp.
  rewrite (ReceiveAndSend_dispatches _ _ _ _ _ _ _ _ _ Hbody Hform Hwebhook Hisatall).
  rewrite (SendToDingtalk_delivered _ _ _ _ _ _ _ _ _ Henvelope Hdata Hsent Hresp).
  split; [reflexivity |].
  unfold envelope_of in Henvelope.
  destruct (description_of _) as [err | description]; [discriminate Henvelope |].
  injection Henvelope as <-. split; reflexivity.
Qed.

End EndToEnd.

Lemma invalid_message_answers_500_witness :
  ReceiveAndSend (R := decoding_runtime event_message_without_kind 200)
    ResponseWriter.fresh complete_request quiet_world
  = Returns (ResponseWriter.mk (Some 500) "resource kind is null in groupLabels")
      (mkWorld [] ["[ERROR] resource kind is null in groupLabels"] 19).
Proof.
  apply (invalid_message_answers_500 (R := decoding_runtime event_message_without_kind 200)
           complete_request quiet_world "{...}"
           (fst (InRequest.ParseForm complete_request))
           "https://oapi.dingtalk.com/robot/send" "true" [] []);
    reflexivity.
Defined.

Lemma undecoded_body_lacks_alert_type_witness :
  ReceiveAndSend (R := sample_runtime 200) ResponseWriter.fresh complete_request quiet_world
  = Returns (ResponseWriter.mk (Some 500) "alert type is null")
      (mkWorld [] ["[ERROR] alert type is null"] 19).
Proof.
  apply (undecoded_body_lacks_alert_type (R := sample_runtime 200)
           complete_request quiet_world "{...}"
           (fst (InRequest.ParseForm complete_request))
           "https://oapi.dingtalk.com/robot/send" "true" [] []);
    reflexivity.
Defined.

Lemma unreachable_destination_answers_500_witness :
  ReceiveAndSend (R := unreachable_runtime) ResponseWriter.fresh complete_request quiet_world
  = Returns (ResponseWriter.mk (Some 500) "dial tcp: connection refused")
      (mkWorld
         [ json_post (Request.mk "POST" "https://oapi.dingtalk.com/robot/send" ∅
                        "{title:HCaaS 告警组：c-x7k2p:high-cpu（状态：firing）}") ]
         ["[ERROR] dial tcp: connection refused"] 19).
Proof.
  apply (unreachable_destination_answers_500 (R := unreachable_runtime)
           complete_request quiet_world "{...}"
           (fst (InRequest.ParseForm complete_request))
           "https://oapi.dingtalk.com/robot/send" "true" [] [] _ _ _ _
           eq_refl eq_refl eq_refl eq_refl eq_refl eq_refl eq_refl eq_refl).
Defined.

Lemma complete_request_answers_200_witness :
  ReceiveAndSend (R := decoding_runtime metric_message 503)
    ResponseWriter.fresh complete_request quiet_world
  = Returns (ResponseWriter.mk (Some 200) "Alert sent successfully")
      (mkWorld
         [ json_post (Request.mk "POST" "https://oapi.dingtalk.com/robot/send" ∅
                        "{title:HCaaS 告警组：c-x7k2p:high-cpu（状态：firing）}") ]
         [ "[ERROR] map[]";
           "[INFO] Alert message sent to https://oapi.dingtalk.com/robot/send successfully" ]
         19).
Proof.
  exact (proj1 (complete_request_answers_200 (R := decoding_runtime metric_message 503)
                  complete_request quiet_world "{...}"
           (fst (InRequest.ParseForm complete_request))
                  "https://oapi.dingtalk.com/robot/send" "true" [] [] _ _ _ _
                  eq_refl eq_refl eq_refl eq_refl eq_refl eq_refl eq_refl eq_refl)).
Defined.

(** ** What a firing alert adds to the body *)

Lemma text_of_contains (pieces : list string) (piece : string) :
  piece ∈ pieces -> contains (text_of pieces) piece.
Proof.
  intros Hin. apply list_elem_of_split in Hin as (front & back & ->).
  rewrite text_of_app. exists (text_of front), (text_of back). reflexivity.
Qed.

Lemma detail_block_listed `{R : Runtime} (alerts : list Alert.t) (i : nat)
    (alert : Alert.t) (piece : string) :
  alerts !! i = Some alert ->
  Alert.Status alert = "firing" ->
  piece ∈ detail_block (i, alert) ->
  contains (text_of (flat_map detail_block (firing_alerts alerts))) piece.
Proof.
  intros Hi Hstatus Hpiece. apply text_of_contains, list_elem_of_In, in_flat_map.
  exists (i, alert). split; apply list_elem_of_In; [| exact Hpiece].
  apply firing_alerts_spec. split; [exact Hi | exact Hstatus].
Qed.

(** X15. Every label of a firing alert is in the body of the
    notification as a line [- key : value], and so is the line with the
    alert's formatted start time. *)
Theorem firing_alert_is_detailed `{R : Runtime}
    (alertMessage : Message.t) (atMobiles : list string) (isAtAll : bool)
    (description : string) (i : nat) (alert : Alert.t) (k v : string) :
  range_visits_all R ->
  description_of alertMessage = inr description ->
  Message.Alerts alertMessage !! i = Some alert ->
  Alert.Status alert = "firing" ->
  Alert.Labels alert !! k = Some v ->
  exists envelope : DingTalkMarkdown.t,
    envelope_of alertMessage atMobiles isAtAll = inr envelope /\
    contains (Markdown.Text (DingTalkMarkdown.Markdown envelope))
      ("- " +:+ k +:+ " : " +:+ v +:+ LF) /\
    contains (Markdown.Text (DingTalkMarkdown.Markdown envelope))
      ("- 起始时间：" +:+ time_Format (Alert.StartsAt alert) layout +:+ LF).
Proof.
  intros Hrange Hd Hi Hstatus Hlabel. eexists. split; [apply envelope_of_valid, Hd |].
  cbn [DingTalkMarkdown.Markdown Markdown.Text].
  split; apply contains_app_r, contains_app_r;
    apply (detail_block_listed _ i alert _ Hi Hstatus);
    cbn [detail_block]; apply elem_of_cons; right; apply elem_of_app.
  - left. unfold label_lines. apply list_elem_of_In.
    apply (in_map label_line _ (k, v)), list_elem_of_In.
    rewrite (Hrange i (Alert.Labels alert)). apply elem_of_map_to_list, Hlabel.
  - right. apply list_elem_of_singleton. reflexivity.
Qed.

Lemma firing_alert_is_detailed_witness :
  exists envelope : DingTalkMarkdown.t,
    envelope_of (R := sample_runtime 200) metric_message [] false = inr envelope /\
    contains (Markdown.Text (DingTalkMarkdown.Markdown envelope))
      ("- severity : critical" +:+ LF).
Proof.
  assert (Hrange : range_visits_all (sample_runtime 200)).
  { intros i m. reflexivity. }
  destruct (firing_alert_is_detailed (R := sample_runtime 200) metric_message [] false
              (quoted "The metric cpu_spike crossed the threshold") 0
              (sample_alert "firing" (<["severity" := "critical"]> ∅))
              "severity" "critical" Hrange eq_refl eq_refl eq_refl eq_refl)
    as (envelope & Henvelope & Hline & _).
  exists envelope. split; [exact Henvelope | exact Hline].
Defined.

(** ** Requests the handler turns away before the parameters *)

(** X16. A body that cannot be read is answered with status 500 and
    the error, which is logged; parameters that cannot be parsed are
    answered with status 500 and the error, which is not logged.  In
    both cases nothing is sent, whatever parameters the form holds, and
    a read error comes before a parse error. *)
Theorem early_failures_answer_500 `{R : Runtime} (req : InRequest.t) (σ : World) :
  (forall err : error,
      InRequest.Body req = inl err ->
      ReceiveAndSend ResponseWriter.fresh req σ
      = Returns (ResponseWriter.mk (Some StatusInternalServerError) err)
          (mkWorld (outbound σ) (logged σ ++ ["[ERROR] " +:+ err])
             (Z.lor LstdFlags Lshortfile))) /\
  (forall (body : string) (form : gmap string (list string)) (err : error),
      InRequest.Body req = inr body ->
      InRequest.ParseForm req = (form, Some err) ->
      ReceiveAndSend ResponseWriter.fresh req σ
      = Returns (ResponseWriter.mk (Some StatusInternalServerError) err)
          (mkWorld (outbound σ) (logged σ) (Z.lor LstdFlags Lshortfile))).
Proof.
  split.
  - intros err Hbody. unfold ReceiveAndSend. rewrite Hbody. reflexivity.
  - intros body form err Hbody Hform. unfold ReceiveAndSend.
    rewrite Hbody, Hform. reflexivity.
Qed.

Lemma early_failures_answer_500_witness :
  ReceiveAndSend (R := sample_runtime 200) ResponseWriter.fresh unparsable_request quiet_world
  = Returns
      (ResponseWriter.mk (Some 500) ("invalid URL escape " +:+ DQ +:+ "%zz" +:+ DQ))
      (mkWorld [] [] 19).
Proof.
  apply (proj2 (early_failures_answer_500 (R := sample_runtime 200)
                  unparsable_request quiet_world) "{}" ∅);
    reflexivity.
Defined.
